(** * Ground X document chat front-end: the context window builder, the chat
    turn generator and the session state of [app.py]

    The Python code is embedded shallowly.  Python values are a small
    inductive type, an operation that can raise returns in the [res] monad,
    [st.session_state] is a finite map from key names to values, and every
    call to a remote collaborator is answered by the environment of the run
    and written to a log. *)

From Stdlib Require Import ZArith NArith Ascii String DecimalString.
From stdpp Require Import base option list gmap strings fin_maps.

Local Open Scope Z_scope.
Set Warnings "-register-all".

(** ** Python values *)

(** A Python [str] is a sequence of code points. *)
Abbreviation pystr := (list N).

(** The [str] written by an ASCII literal of the source. *)
Definition lit (s : string) : pystr :=
  N_of_ascii <$> list_ascii_of_string s.

Definition nl : pystr := [10%N].
Arguments lit : simpl never.

(** The values [json] decoding produces, as Python sees them.  A [dict] keeps
    its entries in insertion order; a [float] is kept as its binary64 bits. *)
Inductive value :=
| VNone
| VBool (b : bool)
| VInt (n : Z)
| VFloat (bits : Z)
| VStr (s : pystr)
| VList (items : list value)
| VDict (entries : list (pystr * value)).

(** The exceptions of the embedded fragment.  Those the interpreter raises
    carry no text of their own; an exception raised inside a collaborator
    ([requests], the document client) carries its [str(e)] and whether its
    class derives from [ValueError]. *)
Inductive exn :=
| TypeError
| AttributeError
| KeyError (key : value)
| IndexError
| Raised (is_value_error : bool) (description : pystr).

Inductive res (A : Type) :=
| Ok (a : A)
| Raise (e : exn).
Arguments Ok {A} a.
Arguments Raise {A} e.

#[global] Instance res_ret : MRet res := fun _ a => Ok a.
#[global] Instance res_bind : MBind res := fun _ _ f m =>
  match m with
  | Ok a => f a
  | Raise e => Raise e
  end.

(** A [for] loop whose body may raise: the first exception ends the loop. *)
Fixpoint for_each {A B : Type} (body : B -> A -> res B) (acc : B) (xs : list A)
  : res B :=
  match xs with
  | [] => Ok acc
  | x :: xs' => acc' ← body acc x; for_each body acc' xs'
  end.

Fixpoint assoc (k : pystr) (d : list (pystr * value)) : option value :=
  match d with
  | [] => None
  | (k', v) :: d' => if decide (k' = k) then Some v else assoc k d'
  end.

Definition nonempty {A : Type} (l : list A) : bool :=
  match l with
  | [] => false
  | _ :: _ => true
  end.

(** [bool(v)] *)
Definition truthy (v : value) : bool :=
  match v with
  | VNone => false
  | VBool b => b
  | VInt n => negb (n =? 0)
  | VFloat bits => negb (Z.land bits (2 ^ 63 - 1) =? 0)
  | VStr s => nonempty s
  | VList l => nonempty l
  | VDict d => nonempty d
  end.

Fixpoint prefixb (p s : pystr) : bool :=
  match p, s with
  | [], _ => true
  | _ :: _, [] => false
  | a :: p', b :: s' => if decide (a = b) then prefixb p' s' else false
  end.

Fixpoint infixb (p s : pystr) : bool :=
  prefixb p s ||
  match s with
  | [] => false
  | _ :: s' => infixb p s'
  end.

Definition is_str (k : pystr) (v : value) : bool :=
  match v with
  | VStr s => bool_decide (s = k)
  | _ => false
  end.

(** [key in v], for a [str] key *)
Definition py_in (key : pystr) (v : value) : res bool :=
  match v with
  | VDict d => Ok (bool_decide (is_Some (assoc key d)))
  | VList l => Ok (existsb (is_str key) l)
  | VStr s => Ok (infixb key s)
  | _ => Raise TypeError
  end.

(** [v[key]], for a [str] key *)
Definition py_item (v : value) (key : pystr) : res value :=
  match v with
  | VDict d =>
      match assoc key d with
      | Some x => Ok x
      | None => Raise (KeyError (VStr key))
      end
  | _ => Raise TypeError
  end.

(** [v[0]] *)
Definition py_first (v : value) : res value :=
  match v with
  | VList (x :: _) => Ok x
  | VList [] => Raise IndexError
  | VStr (c :: _) => Ok (VStr [c])
  | VStr [] => Raise IndexError
  | VDict _ => Raise (KeyError (VInt 0))
  | _ => Raise TypeError
  end.

(** [v.get(key)] *)
Definition py_get (v : value) (key : pystr) : res value :=
  match v with
  | VDict d => Ok (default VNone (assoc key d))
  | _ => Raise AttributeError
  end.

(** [v[:n]]; slicing a [dict] raises ([TypeError], [KeyError] from 3.12 on) *)
Definition py_slice (n : nat) (v : value) : res value :=
  match v with
  | VList l => Ok (VList (take n l))
  | VStr s => Ok (VStr (take n s))
  | _ => Raise TypeError
  end.

(** the items a [for] loop over [v] visits *)
Definition py_iter (v : value) : res (list value) :=
  match v with
  | VList l => Ok l
  | VStr s => Ok ((fun c => VStr [c]) <$> s)
  | VDict d => Ok ((fun e => VStr e.1) <$> d)
  | _ => Raise TypeError
  end.

(** [len(v)] *)
Definition py_len (v : value) : res nat :=
  match v with
  | VStr s => Ok (length s)
  | VList l => Ok (length l)
  | VDict d => Ok (length d)
  | _ => Raise TypeError
  end.

(** [v + s], for a [str] s *)
Definition py_add (v : value) (s : pystr) : res value :=
  match v with
  | VStr t => Ok (VStr (t ++ s))
  | _ => Raise TypeError
  end.

Fixpoint join_with (sep : pystr) (l : list pystr) : pystr :=
  match l with
  | [] => []
  | [s] => s
  | s :: l' => s ++ sep ++ join_with sep l'
  end.

Definition as_str (v : value) : res pystr :=
  match v with
  | VStr s => Ok s
  | _ => Raise TypeError
  end.

Fixpoint all_str (l : list value) : res (list pystr) :=
  match l with
  | [] => Ok []
  | v :: l' => s ← as_str v; ss ← all_str l'; Ok (s :: ss)
  end.

(** [sep.join(items)] *)
Definition py_join (sep : pystr) (items : list value) : res pystr :=
  ss ← all_str items; Ok (join_with sep ss).

(** [str(n)] for an [int].  From CPython 3.11 on the conversion between
    [int] and [str] has a limit in both directions, 4300 digits unless it
    is configured: where it is on, an [int] beyond it does not come out of
    JSON decoding, which raises on it; where it is off, [str] has none. *)
Definition decimal (n : Z) : pystr :=
  lit (NilZero.string_of_int (Z.to_int n)).

(** ** The context window builder *)

Section ContextWindow.

(** [str(v)] for a [float], a [list] or a [dict] is the interpreter's own
    [repr]; the development holds for every such function. *)
Variable py_repr : value -> pystr.

(** [str(v)], which an f-string applies to each of its fields *)
Definition py_str (v : value) : pystr :=
  match v with
  | VStr s => s
  | VNone => lit "None"
  | VBool true => lit "True"
  | VBool false => lit "False"
  | VInt n => decimal n
  | _ => py_repr v
  end.

(** The body of the inner loop of [prepare_chat_context], over the chunks of
    a page; [extracted_texts] is the accumulator. *)
Definition chunk_step (extracted_texts : list value) (chunk : value)
  : res (list value) :=
  has_text ← py_in (lit "text") chunk;
  present ← (if has_text : bool
             then t ← py_item chunk (lit "text"); Ok (truthy t)
             else Ok false);
  if present : bool then
    text ← py_item chunk (lit "text");
    n ← py_len text;
    text ← (if (500 <? n)%nat
            then head ← py_slice 500 text; py_add head (lit "...")
            else Ok text);
    Ok (extracted_texts ++ [text])
  else Ok extracted_texts.

(** The body of the outer loop, over the pages. *)
Definition page_step (extracted_texts : list value) (page : value)
  : res (list value) :=
  has_chunks ← py_in (lit "chunks") page;
  if has_chunks : bool then
    chunks ← py_item page (lit "chunks");
    first3 ← py_slice 3 chunks;
    items ← py_iter first3;
    for_each chunk_step extracted_texts items
  else Ok extracted_texts.

(** [if xray_data.get(key): context_parts.append(f"{label}{xray_data[key]}")] *)
Definition labelled_part (xray_data : value) (key label : pystr)
    (context_parts : list pystr) : res (list pystr) :=
  field ← py_get xray_data key;
  if truthy field then
    v ← py_item xray_data key;
    Ok (context_parts ++ [label ++ py_str v])
  else Ok context_parts.

Definition prepare_chat_context (xray_data prompt : value) : res value :=
  if negb (truthy xray_data) then Ok VNone
  else
    context_parts ← labelled_part xray_data (lit "fileSummary")
                      (lit "Summary: ") [];
    has_pages ← py_in (lit "documentPages") xray_data;
    with_pages ← (if has_pages : bool
                  then p ← py_item xray_data (lit "documentPages");
                       Ok (truthy p)
                  else Ok false);
    context_parts ←
      (if with_pages : bool then
         pages ← py_item xray_data (lit "documentPages");
         first2 ← py_slice 2 pages;
         items ← py_iter first2;
         extracted_texts ← for_each page_step [] items;
         if nonempty extracted_texts then
           joined ← py_join (lit " ") extracted_texts;
           Ok (context_parts ++ [lit "Document Content: " ++ joined])
         else Ok context_parts
       else Ok context_parts);
    context_parts ← labelled_part xray_data (lit "fileType")
                      (lit "File Type: ") context_parts;
    context_parts ← labelled_part xray_data (lit "language")
                      (lit "Language: ") context_parts;
    Ok (if nonempty context_parts
        then VStr (join_with (nl ++ nl) context_parts)
        else VNone).

End ContextWindow.

(** The input of the spec's worked example. *)
Definition xray_example : value :=
  VDict [ (lit "fileSummary", VStr (lit "S"));
          (lit "fileType", VStr (lit "PDF"));
          (lit "language", VStr (lit "en"));
          (lit "documentPages",
           VList [ VDict [ (lit "chunks",
                            VList [ VDict [ (lit "text", VStr (lit "T")) ] ]) ] ]) ].

(** ** The chat turn generator *)

(** What [requests.post] is called with. *)
Record request := {
  url : pystr;
  headers : list (pystr * pystr);
  json : value;
  timeout : Z
}.

(** What the completion API answers: [requests.post] raises, or it returns a
    response with a status code, whose [json()] returns the decoded body or
    raises. *)
Inductive http_reply :=
| PostRaises (e : exn)
| Response (status_code : Z) (body : res value).

(** [try: body except Exception as e: handler(e)] *)
Definition try_except {A : Type} (body : res A) (handler : exn -> res A)
  : res A :=
  match body with
  | Ok a => Ok a
  | Raise e => handler e
  end.

Definition quote : pystr := [34%N].

Definition no_key_message : pystr :=
  10060%N :: lit " Error: OPENROUTER_API_KEY not found in environment variables. Please add it to your .env file.".

Definition no_context_instruction : pystr :=
  lit "No document context available. Answer the question based on general knowledge.".

Definition no_answer_message : pystr :=
  lit "Sorry, I couldn't generate a response.".

Definition trouble_status : pystr :=
  lit "I'm having trouble accessing the AI model right now. Status: ".

Definition trouble_error : pystr :=
  lit "I'm having trouble accessing the AI model right now. Error: ".

(** The f-string [full_prompt], with [context] and [prompt] already turned
    into text. *)
Definition full_prompt (context prompt : pystr) : pystr :=
  lit "You are an AI assistant helping analyze a document. You have access to the following document information:"
  ++ nl ++ nl ++ context ++ nl ++ nl
  ++ lit "User Question: " ++ prompt ++ nl ++ nl
  ++ lit "Instructions:" ++ nl
  ++ lit "- Answer the question directly and concisely" ++ nl
  ++ lit "- Use Document Content for specific details" ++ nl
  ++ lit "- Use Summary for general overview" ++ nl
  ++ lit "- Don't add unnecessary disclaimers or explanations" ++ nl
  ++ lit "- If you don't have the information, simply say " ++ quote
  ++ lit "I don't have enough information to answer that question" ++ quote
  ++ nl
  ++ lit "- Keep responses focused and to the point" ++ nl ++ nl
  ++ lit "Response:".

(** The binary64 bits of [0.3]. *)
Definition float_0_3 : Z := 4599075939470750515.

Definition completion_request (api_key full_prompt : pystr) : request :=
  {| url := lit "https://openrouter.ai/api/v1/chat/completions";
     headers :=
       [ (lit "Authorization", lit "Bearer " ++ api_key);
         (lit "Content-Type", lit "application/json");
         (lit "HTTP-Referer", lit "https://github.com/your-repo");
         (lit "X-Title", lit "Ground X Document Processing") ];
     json :=
       VDict [ (lit "model", VStr (lit "openai/gpt-4o-mini"));
               (lit "messages",
                VList [ VDict [ (lit "role", VStr (lit "user"));
                                (lit "content", VStr full_prompt) ] ]);
               (lit "temperature", VFloat float_0_3);
               (lit "max_tokens", VInt 300) ];
     timeout := 60 |}.

Section ChatTurn.

Variable py_repr : value -> pystr.

(** [str(e)] for an exception raised by the interpreter. *)
Variable exc_text : exn -> pystr.

Definition exc_str (e : exn) : pystr :=
  match e with
  | Raised _ description => description
  | _ => exc_text e
  end.

(** The body of the [try] block once [requests.post] has answered. *)
Definition read_reply (reply : http_reply) : res value :=
  match reply with
  | PostRaises e => Raise e
  | Response status_code body =>
      if status_code =? 200 then
        result ← body;
        has_choices ← py_in (lit "choices") result;
        some_choice ← (if has_choices : bool
                       then choices ← py_item result (lit "choices");
                            n ← py_len choices;
                            Ok (0 <? n)%nat
                       else Ok false);
        if some_choice : bool then
          choices ← py_item result (lit "choices");
          choice ← py_first choices;
          message ← py_item choice (lit "message");
          py_item message (lit "content")
        else Ok (VStr no_answer_message)
      else Ok (VStr (trouble_status ++ py_str py_repr (VInt status_code)))
  end.

(** [generate_chat_response(prompt, context)], in an environment where
    [os.getenv("OPENROUTER_API_KEY")] is [api_key] and the completion API
    answers [reply]: the requests that were posted, and the outcome. *)
Definition generate_chat_response (api_key : option pystr)
    (reply : http_reply) (prompt context : value)
  : list request * res value :=
  match api_key with
  | None | Some [] => ([], Ok (VStr no_key_message))
  | Some api_key =>
      let context :=
        if truthy context then context else VStr no_context_instruction in
      let full_prompt :=
        full_prompt (py_str py_repr context) (py_str py_repr prompt) in
      ([completion_request api_key full_prompt],
       try_except (read_reply reply)
         (fun e => Ok (VStr (trouble_error ++ exc_str e))))
  end.

End ChatTurn.

(** ** The tabs that display the result

    The calls that draw on the page ([st.markdown], [st.json],
    [st.text_area], [st.write], [st.info], ...) take any value, turn it into
    text themselves and leave the session state alone; what can raise in the
    display is the Python code around them. *)

(** [acc.extend(v)] *)
Definition py_extend (acc : list value) (v : value) : res (list value) :=
  items ← py_iter v; Ok (acc ++ items).

(** The three tabs "Narrative Summary", "Suggested Text" and "Extracted
    Text" walk the result with the same two loops, over every page and every
    chunk; they differ in the key they read and in whether its value is
    appended or spliced in.  [walk_chunk] is the body of the inner loop. *)
Definition walk_chunk (key : pystr) (splice : bool) (acc : list value)
    (chunk : value) : res (list value) :=
  has_key ← py_in key chunk;
  present ← (if has_key : bool
             then v ← py_item chunk key; Ok (truthy v)
             else Ok false);
  if present : bool then
    v ← py_item chunk key;
    if splice then py_extend acc v else Ok (acc ++ [v])
  else Ok acc.

Definition walk_page (key : pystr) (splice : bool) (acc : list value)
    (page : value) : res (list value) :=
  has_chunks ← py_in (lit "chunks") page;
  if has_chunks : bool then
    chunks ← py_item page (lit "chunks");
    items ← py_iter chunks;
    for_each (walk_chunk key splice) acc items
  else Ok acc.

Definition walk (key : pystr) (splice : bool) (xray : value)
  : res (list value) :=
  has_pages ← py_in (lit "documentPages") xray;
  if has_pages : bool then
    pages ← py_item xray (lit "documentPages");
    items ← py_iter pages;
    for_each (walk_page key splice) [] items
  else Ok [].

Definition narratives : value -> res (list value) :=
  walk (lit "narrative") true.

Definition suggested_texts : value -> res (list value) :=
  walk (lit "suggestedText") false.

Definition extracted_texts : value -> res (list value) :=
  walk (lit "text") false.

(** What the "Extracted Text" tab shows: the texts joined by a rule, or
    nothing ([st.info] instead of the text area). *)
Definition combined_text (xray : value) : res (option pystr) :=
  texts ← extracted_texts xray;
  if nonempty texts then
    joined ← py_join (nl ++ nl ++ lit "---" ++ nl ++ nl) texts;
    Ok (Some joined)
  else Ok None.

(** [s.split(",")] *)
Fixpoint split_on (sep : N) (s : pystr) : list pystr :=
  match s with
  | [] => [[]]
  | c :: s' =>
      if decide (c = sep) then [] :: split_on sep s'
      else match split_on sep s' with
           | piece :: pieces => (c :: piece) :: pieces
           | [] => [[c]]
           end
  end.

Definition comma : N := 44%N.

(** [v.split(",")] *)
Definition py_split (v : value) : res (list pystr) :=
  match v with
  | VStr s => Ok (split_on comma s)
  | _ => Raise AttributeError
  end.

(** [v.get(key, fallback)] *)
Definition py_get_or (v : value) (key : pystr) (fallback : value)
  : res value :=
  match v with
  | VDict d => Ok (default fallback (assoc key d))
  | _ => Raise AttributeError
  end.

(** [len(xray.get("documentPages", []))] *)
Definition pages_metric (xray : value) : res nat :=
  pages ← py_get_or xray (lit "documentPages") (VList []);
  py_len pages.

(** [len(xray.get("fileKeywords", "").split(",")) if xray.get("fileKeywords")
    else 0] *)
Definition keywords_metric (xray : value) : res nat :=
  keywords ← py_get xray (lit "fileKeywords");
  if truthy keywords then
    keywords ← py_get_or xray (lit "fileKeywords") (VStr []);
    pieces ← py_split keywords;
    Ok (length pieces)
  else Ok 0%nat.

(** What separates two metrics on their line. *)
Definition gap : pystr :=
  lit " " ++ concat (replicate 12 (lit "&nbsp;")) ++ lit " ".

Section Display.

Variable py_repr : value -> pystr.

(** The line of metrics above the tabs. *)
Definition metrics (xray : value) : res pystr :=
  file_type ← py_get_or xray (lit "fileType") (VStr (lit "Unknown"));
  language ← py_get_or xray (lit "language") (VStr (lit "Unknown"));
  pages ← pages_metric xray;
  keywords ← keywords_metric xray;
  Ok (lit "**File Type:** " ++ py_str py_repr file_type ++ gap
      ++ lit "**Language:** " ++ py_str py_repr language ++ gap
      ++ lit "**Pages:** " ++ decimal (Z.of_nat pages) ++ gap
      ++ lit "**Keywords:** " ++ decimal (Z.of_nat keywords)).

(** The metrics and the six tabs, in the order of the script: whether the
    display of a result returns, or the exception that ends it. *)
Definition display (xray : value) : res unit :=
  _ ← metrics xray;
  _ ← narratives xray;
  _ ← py_get xray (lit "fileSummary");
  _ ← suggested_texts xray;
  _ ← combined_text xray;
  _ ← py_get xray (lit "fileKeywords");
  Ok tt.

End Display.

Definition no_author_message : pystr :=
  lit "The author name is required for a chat message, please set it via the parameter `name`.".

(** [st.chat_message(name)] lower-cases the name it is given to choose an
    avatar, and refuses [None]. *)
Definition chat_message (name : value) : res unit :=
  match name with
  | VStr _ => Ok tt
  | VNone => Raise (Raised false no_author_message)
  | _ => Raise AttributeError
  end.

(** The loop that renders the chat history. *)
Definition render_message (_ : unit) (message : value) : res unit :=
  role ← py_item message (lit "role");
  _ ← chat_message role;
  _ ← py_item message (lit "content");
  Ok tt.

Definition render_history (chat_history : value) : res unit :=
  messages ← py_iter chat_history;
  for_each render_message tt messages.

(** ** The session state and one run of the script *)

(** [st.session_state]: the keys that are present, and their values. *)
Abbreviation session := (gmap string value).

(** The calls a run makes to its collaborators, in order. *)
Inductive call :=
| CreateClient
| EnsureBucket (* [ensure_bucket(gx)] *)
| CheckFileExists (bucket_id : value) (file_name : pystr)
| GetXray (document_id bucket_id : value)
| ProcessDocument (bucket_id file_name file_path : value)
| Post (r : request).

(** The widgets of the page as one run of the script reads them. *)
Record widgets := {
  clear_clicked : bool;      (* "Clear Analysis", [on_click=reset_analysis] *)
  reprocess_clicked : bool;  (* "Re-process File" *)
  reload_clicked : bool;     (* "Reload API Keys" *)
  uploaded : option (pystr * pystr);  (* the uploader's file: name, type *)
  chat_input : option pystr
}.

(** What the environment answers during one run. *)
Record world := {
  GROUNDX_API_KEY : option pystr;
  OPENROUTER_API_KEY : option pystr;
  SAMPLE_FILE_NAME : option pystr;
  md5_hexdigest : pystr;               (* of the document API key *)
  create_client_reply : res unit;
  ensure_bucket_reply : res value;
  check_file_exists_reply : res value;
  get_xray_reply : res value;
  process_document_reply : res (value * value);
  temp_file_reply : res pystr;         (* writing the upload to a temporary
                                          file: its name, or what raised *)
  completion_reply : http_reply
}.

(** How a run ends: at the end of the script, at [st.rerun()], at
    [st.stop()], or at an exception nothing catches. *)
Inductive ending :=
| Finished
| Rerun
| Stopped
| Crashed (e : exn).

Inductive outcome (A : Type) :=
| Next (a : A)
| End (how : ending).
Arguments Next {A} a.
Arguments End {A} how.

(** A piece of the script: it reads and writes the session state, appends to
    the log of calls, and either goes on or ends the run. *)
Definition run (A : Type) : Type :=
  session -> list call -> outcome A * session * list call.

#[global] Instance run_ret : MRet run := fun _ a ss log => (Next a, ss, log).
#[global] Instance run_bind : MBind run := fun _ _ f m ss log =>
  match m ss log with
  | (Next a, ss', log') => f a ss' log'
  | (End how, ss', log') => (End how, ss', log')
  end.

Definition then_ {A : Type} (m : run unit) (k : run A) : run A :=
  m ≫= fun _ => k.
Infix ";;" := then_ (at level 100, right associativity).

(** [st.session_state.key]; the script reads a key only where it is present. *)
Definition state_get (key : string) : run value :=
  fun ss log => (Next (default VNone (ss !! key)), ss, log).

Definition state_set (key : string) (v : value) : run unit :=
  fun ss log => (Next tt, <[key := v]> ss, log).

Definition state_has (key : string) : run bool :=
  fun ss log => (Next (bool_decide (is_Some (ss !! key))), ss, log).

Definition modify (f : session -> session) : run unit :=
  fun ss log => (Next tt, f ss, log).

Definition called (c : call) : run unit :=
  fun ss log => (Next tt, ss, log ++ [c]).

Definition called_all (cs : list call) : run unit :=
  fun ss log => (Next tt, ss, log ++ cs).

Definition end_run {A : Type} (how : ending) : run A :=
  fun ss log => (End how, ss, log).

(** An exception that nothing catches ends the run. *)
Definition lift {A : Type} (r : res A) : run A :=
  match r with
  | Ok a => mret a
  | Raise e => end_run (Crashed e)
  end.

Definition when (b : bool) (m : run unit) : run unit :=
  if b then m else mret tt.

Definition keys_to_delete : list string :=
  [ "xray_data"; "uploaded_file_path"; "uploaded_file_name";
    "uploaded_file_type"; "processing_complete"; "used_existing_file";
    "auto_loaded_file"; "chat_history" ]%string.

Definition reset_analysis (ss : session) : session :=
  foldl (fun ss key => delete key ss) ss keys_to_delete.

Definition initial_keys : list string :=
  [ "xray_data"; "uploaded_file_path"; "uploaded_file_name";
    "uploaded_file_type"; "processing_complete"; "used_existing_file";
    "auto_loaded_file" ]%string.

(** [None if key == "xray_data" else False] *)
Definition initial_value (key : string) : value :=
  if decide (key = "xray_data"%string) then VNone else VBool false.

(** The loop that initialises the session state at the top of the script. *)
Definition init_state (ss : session) : session :=
  foldl (fun ss key =>
           match ss !! key with
           | Some _ => ss
           | None => <[key := initial_value key]> ss
           end) ss initial_keys.

(** The handler of the "Re-process File" button, before its [st.rerun()]. *)
Definition reprocess (ss : session) : session :=
  <["auto_loaded_file" := VBool false]>
    (<["used_existing_file" := VBool false]>
       (<["xray_data" := VNone]>
          (<["processing_complete" := VBool false]> ss))).

(** [str.strip()] removes the characters for which [str.isspace] holds. *)
Definition isspace (c : N) : bool :=
  bool_decide (c ∈ [9; 10; 11; 12; 13; 28; 29; 30; 31; 32; 133; 160; 5760;
                    8192; 8193; 8194; 8195; 8196; 8197; 8198; 8199; 8200;
                    8201; 8202; 8232; 8233; 8239; 8287; 12288]%N).

Fixpoint lstrip (drop_it : N -> bool) (s : pystr) : pystr :=
  match s with
  | [] => []
  | c :: s' => if drop_it c then lstrip drop_it s' else s
  end.

Definition strip (s : pystr) : pystr :=
  reverse (lstrip isspace (reverse (lstrip isspace s))).

Definition placeholder : pystr := lit "your-groundx-api-key-here".

Definition key_error_message : pystr :=
  lit "API key is missing or still using placeholder value. Please update GROUNDX_API_KEY in your .env file with your actual API key.".

(** The variables the script sets while it connects to the document API. *)
Record client := {
  gx : bool;              (* whether [gx] holds a client *)
  bucket_id : value;
  groundx_available : bool;
  groundx_error : value
}.

Definition sample_file_default : pystr := lit "tmpivkf8qf8_sample-file.pdf".

Definition is_none (v : value) : bool :=
  match v with
  | VNone => true
  | _ => false
  end.

(** [l.append(x)] *)
Definition py_append (l x : value) : res value :=
  match l with
  | VList items => Ok (VList (items ++ [x]))
  | _ => Raise AttributeError
  end.

Definition turn (role : string) (content : value) : value :=
  VDict [ (lit "role", VStr (lit role)); (lit "content", content) ].

Definition is_value_error (e : exn) : bool :=
  match e with
  | Raised b _ => b
  | _ => false
  end.

(** *** [str.encode()]

    The default codec, UTF-8, refuses the surrogate code points; an
    environment variable holds them where its bytes were not valid UTF-8. *)

Definition is_surrogate (c : N) : bool :=
  ((55296 <=? c) && (c <=? 57343))%N.

Definition utf8 (c : N) : list N :=
  (if c <? 128 then [c]
   else if c <? 2048 then [192 + c / 64; 128 + c mod 64]
   else if c <? 65536
        then [224 + c / 4096; 128 + c / 64 mod 64; 128 + c mod 64]
        else [240 + c / 262144; 128 + c / 4096 mod 64;
              128 + c / 64 mod 64; 128 + c mod 64])%N.

Definition hex_digit (d : N) : N :=
  (if d <? 10 then 48 + d else 87 + d)%N.

(** [repr] of a surrogate inside the text of the exception. *)
Definition escaped (c : N) : pystr :=
  lit "\u"
  ++ [ hex_digit (c / 4096); hex_digit (c / 256 mod 16);
       hex_digit (c / 16 mod 16); hex_digit (c mod 16) ]%N.

Fixpoint surrogate_run (s : pystr) : nat :=
  match s with
  | c :: s' => if is_surrogate c then S (surrogate_run s') else 0
  | [] => 0
  end.

(** The text of the [UnicodeEncodeError] for a run of [S more] surrogates
    that starts with [c] at index [i]. *)
Definition encode_error_text (i : nat) (c : N) (more : nat) : pystr :=
  match more with
  | O =>
      lit "'utf-8' codec can't encode character '" ++ escaped c
      ++ lit "' in position " ++ decimal (Z.of_nat i)
      ++ lit ": surrogates not allowed"
  | S _ =>
      lit "'utf-8' codec can't encode characters in position "
      ++ decimal (Z.of_nat i) ++ lit "-" ++ decimal (Z.of_nat (i + more))
      ++ lit ": surrogates not allowed"
  end.

(** [s.encode()], from index [i] on; [UnicodeEncodeError] derives from
    [ValueError]. *)
Fixpoint encode_from (i : nat) (s : pystr) : res (list N) :=
  match s with
  | [] => Ok []
  | c :: s' =>
      if is_surrogate c
      then Raise (Raised true (encode_error_text i c (surrogate_run s')))
      else bytes ← encode_from (S i) s'; Ok (utf8 c ++ bytes)
  end.

Definition py_encode (s : pystr) : res (list N) := encode_from 0 s.

Section Script.

Variable py_repr : value -> pystr.
Variable exc_text : exn -> pystr.

(** [except ValueError as e] and [except Exception as e] of the block that
    connects to the document API; [has_gx] says whether [gx] was assigned. *)
Definition connect_failed (has_gx : bool) (e : exn) : client :=
  {| gx := has_gx; bucket_id := VNone; groundx_available := false;
     groundx_error :=
       VStr (if is_value_error e then exc_str exc_text e
             else lit "Unexpected error: " ++ exc_str exc_text e) |}.

(** The block that initialises the client and the bucket.  Both reads of the
    key, [os.getenv] and [os.environ.get], see the same environment.
    Encoding the key for its hash raises on a surrogate, before the hash is
    stored; [md5_hexdigest w] is the digest of the bytes otherwise.
    [create_client.clear()] empties a cache inside the collaborator and
    leaves the session state alone; what [create_client] answers in a run is
    part of the environment of that run. *)
Definition connect (w : world) : run client :=
  let api_key_check :=
    match GROUNDX_API_KEY w with
    | Some (c :: k) => Some (lstrip (fun c => bool_decide (c = 65279%N))
                               (strip (c :: k)))
    | other => other
    end in
  match api_key_check with
  | None | Some [] =>
      mret {| gx := false; bucket_id := VNone; groundx_available := false;
              groundx_error := VStr key_error_message |}
  | Some key =>
      if decide (key = placeholder) then
        mret {| gx := false; bucket_id := VNone; groundx_available := false;
                groundx_error := VStr key_error_message |}
      else
        match py_encode key with
        | Raise e => mret (connect_failed false e)
        | Ok _ =>
            state_set "last_api_key_hash" (VStr (md5_hexdigest w));;
            called CreateClient;;
            match create_client_reply w with
            | Raise e => mret (connect_failed false e)
            | Ok _ =>
                called EnsureBucket;;
                match ensure_bucket_reply w with
                | Raise e => mret (connect_failed true e)
                | Ok b =>
                    mret {| gx := true; bucket_id := b;
                            groundx_available := true;
                            groundx_error := VNone |}
                end
            end
        end
  end.

(** The block that loads an existing document of the bucket. *)
Definition auto_load (w : world) (c : client) : run unit :=
  auto_loaded_file ← state_get "auto_loaded_file";
  xray_data ← state_get "xray_data";
  if gx c && truthy (bucket_id c) && negb (truthy auto_loaded_file)
     && negb (truthy xray_data)
  then
    let existing_file_name :=
      default sample_file_default (SAMPLE_FILE_NAME w) in
    called (CheckFileExists (bucket_id c) existing_file_name);;
    existing_doc_id ← lift (check_file_exists_reply w);
    if truthy existing_doc_id then
      called (GetXray existing_doc_id (bucket_id c));;
      xray ← lift (get_xray_reply w);
      state_set "xray_data" xray;;
      state_set "uploaded_file_name" (VStr existing_file_name);;
      state_set "uploaded_file_type" (VStr (lit "application/pdf"));;
      state_set "processing_complete" (VBool true);;
      state_set "used_existing_file" (VBool true);;
      state_set "auto_loaded_file" (VBool true);;
      end_run Rerun
    else state_set "auto_loaded_file" (VBool true)
  else mret tt.

(** The block that processes the chosen file.  The upload is first written
    to a temporary file, outside any [try]: what raises there ends the
    run. *)
Definition process (w : world) (ui : widgets) (c : client) : run unit :=
  should_process ←
    match uploaded ui with
    | Some _ =>
        tmp_file_name ← lift (temp_file_reply w);
        state_set "uploaded_file_path" (VStr tmp_file_name);;
        mret true
    | None =>
        path ← state_get "uploaded_file_path";
        complete ← state_get "processing_complete";
        mret (truthy path && negb (truthy complete))
    end;
  xray_data ← state_get "xray_data";
  if should_process && is_none xray_data then
    if negb (groundx_available c) then end_run Stopped
    else
      file_name ← match uploaded ui with
                  | Some (name, _) => mret (VStr name)
                  | None => state_get "uploaded_file_name"
                  end;
      file_path ← state_get "uploaded_file_path";
      called (ProcessDocument (bucket_id c) file_name file_path);;
      match process_document_reply w with
      | Ok (xray, used_existing) =>
          state_set "xray_data" xray;;
          state_set "processing_complete" (VBool true);;
          state_set "used_existing_file" used_existing
      | Raise _ => state_set "processing_complete" (VBool false)
      end
  else mret tt.

(** The display of the result: the metrics and the tabs, then the chat
    tab. *)
Definition chat (w : world) (ui : widgets) : run unit :=
  xray ← state_get "xray_data";
  if truthy xray then
    lift (display py_repr xray);;
    match OPENROUTER_API_KEY w with
    | None | Some [] => mret tt
    | Some _ =>
        has_history ← state_has "chat_history";
        when (negb has_history) (state_set "chat_history" (VList []));;
        history ← state_get "chat_history";
        lift (render_history history);;
        match chat_input ui with
        | None | Some [] => mret tt
        | Some prompt =>
            history ← state_get "chat_history";
            history ← lift (py_append history (turn "user" (VStr prompt)));
            state_set "chat_history" history;;
            context ← lift (prepare_chat_context py_repr xray (VStr prompt));
            let '(posted, response) :=
              generate_chat_response py_repr exc_text (OPENROUTER_API_KEY w)
                (completion_reply w) (VStr prompt) context in
            called_all (Post <$> posted);;
            response ← lift response;
            history ← state_get "chat_history";
            history ← lift (py_append history (turn "assistant" response));
            state_set "chat_history" history
        end
    end
  else mret tt.

(** One run of the script, from the callback of the button that started it
    to its end. *)
Definition script (w : world) (ui : widgets) : run unit :=
  when (clear_clicked ui) (modify reset_analysis);;
  modify init_state;;
  uploaded_file_name ← state_get "uploaded_file_name";
  when (truthy uploaded_file_name && reprocess_clicked ui)
    (modify reprocess;; end_run Rerun);;
  match uploaded ui with
  | Some (name, type) =>
      state_set "uploaded_file_name" (VStr name);;
      state_set "uploaded_file_type" (VStr type)
  | None => mret tt
  end;;
  when (reload_clicked ui)
    (modify (delete "last_api_key_hash");; end_run Rerun);;
  c ← connect w;
  auto_load w c;;
  process w ui c;;
  chat w ui.

(** A session: the runs follow one another on the same session state. *)
Fixpoint session_runs (steps : list (world * widgets)) (ss : session)
    (log : list call) : session * list call :=
  match steps with
  | [] => (ss, log)
  | (w, ui) :: steps' =>
      let '(_, ss', log') := script w ui ss log in
      session_runs steps' ss' log'
  end.

End Script.

Definition is_lookup (c : call) : bool :=
  match c with
  | CheckFileExists _ _ => true
  | _ => false
  end.

(** How many times the log looks a document up in the bucket. *)
Definition lookups (log : list call) : nat :=
  length (filter (fun c => is_lookup c = true) log).
(** ** The data model of an X-Ray result

    An [XRayResult] is [None] or a [dict] in which each field the builder
    reads is absent or has its declared type: [fileSummary], [fileType] and
    [language] are strings, [documentPages] is a list of pages, the [chunks]
    of a page are a list of chunks, the [text] of a chunk is a string.  This
    is the model without null values: a field that is there holds a value of
    its type.  Results in which a field is there and [None] are the wider
    model [nullable_xray] below. *)

Definition str_field (o : option value) : Prop :=
  match o with
  | None => True
  | Some (VStr _) => True
  | Some _ => False
  end.

Definition wf_chunk (chunk : value) : Prop :=
  match chunk with
  | VDict d => str_field (assoc (lit "text") d)
  | _ => False
  end.

Definition wf_page (page : value) : Prop :=
  match page with
  | VDict d =>
      match assoc (lit "chunks") d with
      | None => True
      | Some (VList chunks) => Forall wf_chunk chunks
      | Some _ => False
      end
  | _ => False
  end.

Definition wf_fields (d : list (pystr * value)) : Prop :=
  str_field (assoc (lit "fileSummary") d) /\
  str_field (assoc (lit "fileType") d) /\
  str_field (assoc (lit "language") d) /\
  match assoc (lit "documentPages") d with
  | None => True
  | Some (VList pages) => Forall wf_page pages
  | Some _ => False
  end.

Definition wf_xray (xray_data : value) : Prop :=
  match xray_data with
  | VNone => True
  | VDict d => wf_fields d
  | _ => False
  end.

(** The text of a field, empty when the field is absent. *)
Definition text_of (o : option value) : pystr :=
  match o with
  | Some (VStr s) => s
  | _ => []
  end.

Definition field (d : list (pystr * value)) (key : string) : pystr :=
  text_of (assoc (lit key) d).

Definition chunk_text (chunk : value) : pystr :=
  match chunk with
  | VDict d => field d "text"
  | _ => []
  end.

Definition page_chunks (page : value) : list value :=
  match page with
  | VDict d =>
      match assoc (lit "chunks") d with
      | Some (VList chunks) => chunks
      | _ => []
      end
  | _ => []
  end.

Definition pages_of (d : list (pystr * value)) : list value :=
  match assoc (lit "documentPages") d with
  | Some (VList pages) => pages
  | _ => []
  end.

Definition texts_of (chunks : list value) : list pystr :=
  filter (fun t : pystr => t ≠ []) (chunk_text <$> chunks).

(** The chunk texts inside the window: the non-empty texts of the first 3
    chunks of each of the first 2 pages, in document order. *)
Definition window_texts (d : list (pystr * value)) : list pystr :=
  concat ((fun page => texts_of (take 3 (page_chunks page)))
            <$> take 2 (pages_of d)).

(** The truncation law, in the spec's words: a text longer than 500
    characters yields its first 500 characters and the ellipsis marker, any
    other text is reproduced verbatim. *)
Definition excerpt (text : pystr) : pystr :=
  if (500 <? length text)%nat then take 500 text ++ lit "..." else text.

Definition part (label text : pystr) : list pystr :=
  if nonempty text then [label ++ text] else [].

Definition content_part (texts : list pystr) : list pystr :=
  if nonempty texts
  then [lit "Document Content: " ++ join_with (lit " ") (excerpt <$> texts)]
  else [].

(** The labelled sections of the spec, in its priority order. *)
Definition sections (d : list (pystr * value)) : list pystr :=
  part (lit "Summary: ") (field d "fileSummary")
  ++ content_part (window_texts d)
  ++ part (lit "File Type: ") (field d "fileType")
  ++ part (lit "Language: ") (field d "language").

(** No labelled part can be produced from the result. *)
Definition nothing_producible (xray_data : value) : Prop :=
  match xray_data with
  | VDict d =>
      field d "fileSummary" = [] /\ window_texts d = [] /\
      field d "fileType" = [] /\ field d "language" = []
  | _ => True
  end.

(** Two results that differ at most in the pages after the second and, within
    a page, in the chunks after the third. *)
Definition same_page (p p' : value) : Prop :=
  p = p' \/
  exists m m' cs cs',
    p = VDict m /\ p' = VDict m' /\
    assoc (lit "chunks") m = Some (VList cs) /\
    assoc (lit "chunks") m' = Some (VList cs') /\
    take 3 cs = take 3 cs'.

Definition same_window (x x' : value) : Prop :=
  exists d d' ps ps',
    x = VDict d /\ x' = VDict d' /\
    (forall k, k ≠ lit "documentPages" -> assoc k d = assoc k d') /\
    assoc (lit "documentPages") d = Some (VList ps) /\
    assoc (lit "documentPages") d' = Some (VList ps') /\
    Forall2 same_page (take 2 ps) (take 2 ps').

(** [sub] occurs in [s] starting at index [i]. *)
Definition occurs_at (sub s : pystr) (i : nat) : Prop :=
  take (length sub) (drop i s) = sub.

#[global] Instance occurs_at_dec sub s i : Decision (occurs_at sub s i).
Proof. unfold occurs_at. apply _. Defined.

(** The strings [subs] occur in [s] in the order of the list: each one starts
    at an index strictly after the start of the one before it. *)
Fixpoint in_order_from (from : nat) (subs : list pystr) (s : pystr) : Prop :=
  match subs with
  | [] => True
  | sub :: rest =>
      exists i, (from <= i)%nat /\ occurs_at sub s i /\
                in_order_from (S i) rest s
  end.

Definition in_order (subs : list pystr) (s : pystr) : Prop :=
  in_order_from 0 subs s.

(** Where [sub] occurs in [s]. *)
Definition positions (sub s : pystr) : list nat :=
  filter (fun i => occurs_at sub s i) (seq 0 (length s)).

(** The context the builder returns on [xray_example]. *)
Definition context_example : pystr :=
  lit "Summary: S" ++ nl ++ nl ++ lit "Document Content: T" ++ nl ++ nl
  ++ lit "File Type: PDF" ++ nl ++ nl ++ lit "Language: en".

(** A [py_repr] for inputs whose formatted fields are all strings: [str] is
    never asked for the [repr] of such a field. *)
Definition no_repr : value -> pystr := fun _ => [].

Definition long_text : pystr := replicate 501 97%N.

(** A result with a summary, a chunk text of 501 characters and a short one. *)
Definition xray_long : list (pystr * value) :=
  [ (lit "fileSummary", VStr (lit "S"));
    (lit "documentPages",
     VList [ VDict [ (lit "chunks",
                      VList [ VDict [ (lit "text", VStr long_text) ];
                              VDict [ (lit "text", VStr (lit "T")) ] ]) ] ]) ].

Definition chunk_of (text : string) : value :=
  VDict [ (lit "text", VStr (lit text)) ].

Definition page_of (texts : list string) : value :=
  VDict [ (lit "chunks", VList (chunk_of <$> texts)) ].

(** Two results with the same first 2 pages and first 3 chunks of each, and
    different fourth chunks and third pages. *)
Definition xray_wide : value :=
  VDict [ (lit "documentPages",
           VList [ page_of ["a"; "b"; "c"; "d"]; page_of ["e"];
                   page_of ["f"] ]) ].

Definition xray_wide' : value :=
  VDict [ (lit "documentPages",
           VList [ page_of ["a"; "b"; "c"; "x"; "y"]; page_of ["e"];
                   page_of ["g"]; page_of ["h"] ]) ].

(** An [exc_text] for runs in which the interpreter raises nothing. *)
Definition no_text : exn -> pystr := fun _ => [].

(** The completion API answers 200 with an empty body: [response.json()]
    raises. *)
Definition empty_body : http_reply :=
  Response 200
    (Raise (Raised true (lit "Expecting value: line 1 column 1 (char 0)"))).

(** An environment with both a document API key and a sample document in
    the bucket, and no completion API key. *)
Definition world_found : world :=
  {| GROUNDX_API_KEY := Some (lit "gx-key");
     OPENROUTER_API_KEY := None;
     SAMPLE_FILE_NAME := None;
     md5_hexdigest := lit "0f3a";
     create_client_reply := Ok tt;
     ensure_bucket_reply := Ok (VInt 7);
     check_file_exists_reply := Ok (VStr (lit "doc-1"));
     get_xray_reply := Ok xray_example;
     process_document_reply := Ok (xray_example, VBool false);
     temp_file_reply := Ok (lit "/tmp/tmpab12_a.pdf");
     completion_reply := empty_body |}.

(** The same environment without a document API key. *)
Definition world_no_key : world :=
  {| GROUNDX_API_KEY := None;
     OPENROUTER_API_KEY := None;
     SAMPLE_FILE_NAME := None;
     md5_hexdigest := lit "0f3a";
     create_client_reply := Ok tt;
     ensure_bucket_reply := Ok (VInt 7);
     check_file_exists_reply := Ok (VStr (lit "doc-1"));
     get_xray_reply := Ok xray_example;
     process_document_reply := Ok (xray_example, VBool false);
     temp_file_reply := Ok (lit "/tmp/tmpab12_a.pdf");
     completion_reply := empty_body |}.

Definition idle : widgets :=
  {| clear_clicked := false; reprocess_clicked := false;
     reload_clicked := false; uploaded := None; chat_input := None |}.

Definition click_reprocess : widgets :=
  {| clear_clicked := false; reprocess_clicked := true;
     reload_clicked := false; uploaded := None; chat_input := None |}.

Definition click_clear : widgets :=
  {| clear_clicked := true; reprocess_clicked := false;
     reload_clicked := false; uploaded := None; chat_input := None |}.

Definition chat_example : value :=
  VList [ turn "user" (VStr (lit "What is this?"));
          turn "assistant" (VStr (lit "A sample.")) ].

(** A session with a processed document and two chat turns. *)
Definition session_with_chat : session :=
  <["chat_history" := chat_example]>
    (<["xray_data" := xray_example]>
       (<["uploaded_file_name" := VStr (lit "a.pdf")]>
          (<["uploaded_file_type" := VStr (lit "application/pdf")]>
             (<["uploaded_file_path" := VStr (lit "/tmp/tmpab12_a.pdf")]>
                (<["processing_complete" := VBool true]>
                   (<["used_existing_file" := VBool false]>
                      (<["auto_loaded_file" := VBool true]> ∅))))))).

(** A key of the session state is cleared: absent, or holding [None],
    [False] or an empty value. *)
Definition cleared (ss : session) (key : string) : Prop :=
  truthy (default VNone (ss !! key)) = false.

(** The guard of the lookup is set. *)
Definition auto_attempted (ss : session) : Prop :=
  truthy (default VNone (ss !! "auto_loaded_file")) = true.



(** The widgets of a run once the callback of "Clear Analysis" has run. *)
Definition after_callback (ui : widgets) : widgets :=
  {| clear_clicked := false; reprocess_clicked := reprocess_clicked ui;
     reload_clicked := reload_clicked ui; uploaded := uploaded ui;
     chat_input := chat_input ui |}.

(** The calls that go to the document API. *)
Definition is_document_call (c : call) : bool :=
  match c with
  | Post _ => false
  | _ => true
  end.

Definition document_calls (log : list call) : list call :=
  filter (fun c => is_document_call c = true) log.

(** What the script knows of the client when the key is missing. *)
Definition no_client : client :=
  {| gx := false; bucket_id := VNone; groundx_available := false;
     groundx_error := VStr key_error_message |}.

(** A piece of the script relates the state and log it starts from to the
    state and log it leaves, however it ends. *)
Definition satisfies {A : Type}
    (R : session * list call -> session * list call -> Prop) (m : run A)
  : Prop :=
  forall ss log, R (ss, log) ((m ss log).1.2, (m ss log).2).

(** The document API is not called. *)
Definition no_document_call (s s' : session * list call) : Prop :=
  document_calls s'.2 = document_calls s.2.

(** At most one lookup is made, none once the guard is set, and a lookup
    leaves the guard set. *)
Definition one_lookup (s s' : session * list call) : Prop :=
  (lookups s.2 <= lookups s'.2 <= lookups s.2 + 1)%nat /\
  (auto_attempted s.1 -> auto_attempted s'.1 /\ lookups s'.2 = lookups s.2) /\
  (lookups s'.2 = (lookups s.2 + 1)%nat -> auto_attempted s'.1).

(** The result that [test_prepare_chat_context] of the repository builds. *)
Definition xray_test : value :=
  VDict [ (lit "fileSummary", VStr (lit "Test summary"));
          (lit "fileType", VStr (lit "PDF"));
          (lit "language", VStr (lit "en"));
          (lit "documentPages",
           VList [ VDict [ (lit "chunks",
                            VList [ chunk_of "Sample text content" ]) ] ]) ].

(** A page whose [chunks] entry is there and [None], as JSON [null]
    decodes. *)
Definition xray_null_chunks : value :=
  VDict [ (lit "documentPages",
           VList [ VDict [ (lit "chunks", VNone) ] ]) ].

(** The same for [documentPages] and for the [text] of a chunk. *)
Definition xray_null_pages : value :=
  VDict [ (lit "documentPages", VNone) ].

Definition xray_null_text : value :=
  VDict [ (lit "documentPages",
           VList [ VDict [ (lit "chunks",
                            VList [ VDict [ (lit "text", VNone) ] ]) ] ]) ].

(** A first render, the render after its [st.rerun()], and a click on
    "Clear Analysis". *)
Definition steps_with_clear : list (world * widgets) :=
  [ (world_found, idle); (world_found, idle); (world_found, click_clear) ].

(** ** Further definitions: the key as the script normalises it *)

Definition bom : N := 65279%N.

(** [api_key_check] once stripped, empty when the variable is unset. *)
Definition normalized_key (w : world) : pystr :=
  match GROUNDX_API_KEY w with
  | Some (c :: k) => lstrip (fun c => bool_decide (c = bom)) (strip (c :: k))
  | _ => []
  end.

(** The key is there and is not the placeholder. *)
Definition usable_key (w : world) : Prop :=
  normalized_key w ≠ [] /\ normalized_key w ≠ placeholder.

(** The calls that read or send a document. *)
Definition is_data_call (c : call) : bool :=
  match c with
  | CheckFileExists _ _ | GetXray _ _ | ProcessDocument _ _ _ => true
  | _ => false
  end.

Definition data_calls (log : list call) : list call :=
  filter (fun c => is_data_call c = true) log.

Definition no_data_call (s s' : session * list call) : Prop :=
  data_calls s'.2 = data_calls s.2.

(** A run that no "Clear Analysis" or "Re-process File" click starts. *)
Definition no_reset (step : world * widgets) : Prop :=
  clear_clicked step.2 = false /\ reprocess_clicked step.2 = false.

Definition loaded (ss : session) : Prop :=
  truthy (default VNone (ss !! "xray_data")) = true.

(** While a result is loaded it stays, and no document call is made. *)
Definition keeps_result (s s' : session * list call) : Prop :=
  loaded s.1 ->
  s'.1 !! "xray_data" = s.1 !! "xray_data" /\ data_calls s'.2 = data_calls s.2.

(** The document calls one run may make, in order: at most one lookup, then
    either the fetch of the document found or the processing of a file. *)
Definition allowed_data (new : list call) : Prop :=
  match new with
  | [] => True
  | [CheckFileExists _ _] => True
  | [CheckFileExists _ _; GetXray _ _] => True
  | [ProcessDocument _ _ _] => True
  | [CheckFileExists _ _; ProcessDocument _ _ _] => True
  | _ => False
  end.

Definition only_lookup (new : list call) : Prop :=
  match new with
  | [] => True
  | [CheckFileExists _ _] => True
  | _ => False
  end.

Definition only_process (new : list call) : Prop :=
  match new with
  | [] => True
  | [ProcessDocument _ _ _] => True
  | _ => False
  end.

(** The document calls of [s'] are those of [s] and then some that [allowed]
    accepts. *)
Definition adds (allowed : list call -> Prop) (s s' : session * list call)
  : Prop :=
  exists new, data_calls s'.2 = data_calls s.2 ++ new /\ allowed new.

(** The chat history only grows. *)
Definition extends_history (s s' : session * list call) : Prop :=
  forall turns,
    s.1 !! "chat_history" = Some (VList turns) ->
    exists more, s'.1 !! "chat_history" = Some (VList (turns ++ more)).

(** The turns of the chat so far, none when the key is absent. *)
Definition history_of (ss : session) : list value :=
  match ss !! "chat_history" with
  | Some (VList turns) => turns
  | _ => []
  end.

(** Every non-empty chunk text of the result, in document order. *)
Definition all_texts (d : list (pystr * value)) : list pystr :=
  concat ((fun page => texts_of (page_chunks page)) <$> pages_of d).

Definition commas (s : pystr) : nat :=
  length (filter (fun c => c = comma) s).

(** The narratives of a chunk, when they are a list as the tab expects. *)
Definition narratives_of (chunk : value) : list value :=
  match chunk with
  | VDict d =>
      match assoc (lit "narrative") d with
      | Some (VList items) => items
      | _ => []
      end
  | _ => []
  end.

Definition narrative_list (chunk : value) : Prop :=
  match chunk with
  | VDict d =>
      match assoc (lit "narrative") d with
      | None | Some (VList _) => True
      | Some _ => False
      end
  | _ => False
  end.

Definition all_chunks (d : list (pystr * value)) : list value :=
  concat (page_chunks <$> pages_of d).

(** ** Example inputs *)


(** The completion API answers 200 with one choice. *)
Definition answer_example : http_reply :=
  Response 200
    (Ok (VDict [ (lit "choices",
                  VList [ VDict [ (lit "message",
                                   VDict [ (lit "content",
                                            VStr (lit "A sample.")) ]) ] ]) ])).

(** An environment with both keys, in which the completion API answers. *)
Definition world_chat : world :=
  {| GROUNDX_API_KEY := Some (lit "gx-key");
     OPENROUTER_API_KEY := Some (lit "or-key");
     SAMPLE_FILE_NAME := None;
     md5_hexdigest := lit "0f3a";
     create_client_reply := Ok tt;
     ensure_bucket_reply := Ok (VInt 7);
     check_file_exists_reply := Ok (VStr (lit "doc-1"));
     get_xray_reply := Ok xray_example;
     process_document_reply := Ok (xray_example, VBool false);
     temp_file_reply := Ok (lit "/tmp/tmpab12_a.pdf");
     completion_reply := answer_example |}.

Definition upload_example : widgets :=
  {| clear_clicked := false; reprocess_clicked := false;
     reload_clicked := false;
     uploaded := Some (lit "b.pdf", lit "application/pdf");
     chat_input := None |}.

Definition ask_example : widgets :=
  {| clear_clicked := false; reprocess_clicked := false;
     reload_clicked := false; uploaded := None;
     chat_input := Some (lit "Q") |}.

(** A result with keywords that end in a comma, and narratives. *)
Definition xray_keywords : list (pystr * value) :=
  [ (lit "fileKeywords", VStr (lit "tax,invoice,"));
    (lit "documentPages",
     VList [ VDict [ (lit "chunks",
                      VList [ VDict [ (lit "text", VStr (lit "T"));
                                      (lit "narrative",
                                       VList [ VStr (lit "n1");
                                               VStr (lit "n2") ]) ];
                              VDict [ (lit "narrative", VList []) ] ]) ];
             VDict [] ]) ].

(** Another file is uploaded while a result is loaded, then a plain render. *)
Definition steps_with_upload : list (world * widgets) :=
  [ (world_found, upload_example); (world_found, idle) ].

(** A question, then a click on "Re-process File" and the render after. *)
Definition steps_with_question : list (world * widgets) :=
  [ (world_chat, ask_example); (world_chat, click_reprocess);
    (world_chat, idle) ].

(** A text that UTF-8 can encode: it holds no surrogate. *)
Definition encodable (s : pystr) : Prop :=
  Forall (fun c => is_surrogate c = false) s.

(** A key that came out of bytes that were not UTF-8. *)
Definition world_surrogate_key : world :=
  {| GROUNDX_API_KEY := Some (lit "gx-" ++ [56448%N] ++ lit "key");
     OPENROUTER_API_KEY := None;
     SAMPLE_FILE_NAME := None;
     md5_hexdigest := lit "0f3a";
     create_client_reply := Ok tt;
     ensure_bucket_reply := Ok (VInt 7);
     check_file_exists_reply := Ok (VStr (lit "doc-1"));
     get_xray_reply := Ok xray_example;
     process_document_reply := Ok (xray_example, VBool false);
     temp_file_reply := Ok (lit "/tmp/tmpab12_a.pdf");
     completion_reply := empty_body |}.

(** A result the tabs can display: it is well-formed, the [narrative] of
    each chunk is absent or a list, and [fileKeywords] is absent or a
    string. *)
Definition displayable (d : list (pystr * value)) : Prop :=
  wf_fields d /\
  Forall narrative_list (all_chunks d) /\
  str_field (assoc (lit "fileKeywords") d).

(** A turn of the chat as the script stores it: a [dict] with a [role] that
    is a string and a [content]. *)
Definition is_turn (message : value) : Prop :=
  match message with
  | VDict entries =>
      match assoc (lit "role") entries with
      | Some (VStr _) => is_Some (assoc (lit "content") entries)
      | _ => False
      end
  | _ => False
  end.

(** A result whose third page is [None]: the context builder never reads
    it, the tabs do. *)
Definition xray_null_page : value :=
  VDict [ (lit "fileSummary", VStr (lit "S"));
          (lit "documentPages",
           VList [ page_of ["a"]; page_of ["b"]; VNone ]) ].

(** The entries of a result that is a [dict]. *)
Definition fields_of (xray : value) : list (pystr * value) :=
  match xray with
  | VDict d => d
  | _ => []
  end.

(** ** Results with null values

    The wider model of an X-Ray result: a field the builder reads is absent,
    there and [None], or there with a value of its declared type. *)

Definition opt_str (o : option value) : Prop :=
  match o with
  | None | Some VNone | Some (VStr _) => True
  | Some _ => False
  end.

Definition nullable_chunk (chunk : value) : Prop :=
  match chunk with
  | VDict d => opt_str (assoc (lit "text") d)
  | _ => False
  end.

Definition nullable_page (page : value) : Prop :=
  match page with
  | VDict d =>
      match assoc (lit "chunks") d with
      | None | Some VNone => True
      | Some (VList chunks) => Forall nullable_chunk chunks
      | Some _ => False
      end
  | _ => False
  end.

Definition nullable_xray (d : list (pystr * value)) : Prop :=
  opt_str (assoc (lit "fileSummary") d) /\
  opt_str (assoc (lit "fileType") d) /\
  opt_str (assoc (lit "language") d) /\
  match assoc (lit "documentPages") d with
  | None | Some VNone => True
  | Some (VList pages) => Forall nullable_page pages
  | Some _ => False
  end.

(** The [chunks] of the page are there and [None]. *)
Definition null_chunks (page : value) : bool :=
  match page with
  | VDict d =>
      match assoc (lit "chunks") d with
      | Some VNone => true
      | _ => false
      end
  | _ => false
  end.

(** A result with null values, and a page with null [chunks] after the
    second. *)
Definition xray_nulls : list (pystr * value) :=
  [ (lit "fileSummary", VNone);
    (lit "fileType", VStr (lit "PDF"));
    (lit "language", VNone);
    (lit "documentPages",
     VList [ VDict [ (lit "chunks",
                      VList [ VDict [ (lit "text", VNone) ];
                              VDict [ (lit "text", VStr (lit "T")) ] ]) ];
             VDict [];
             VDict [ (lit "chunks", VNone) ] ]) ].

(** ** Properties of the context window builder *)

Section ContextWindowFacts.

Variable py_repr : value -> pystr.

Lemma bind_ok {A B : Type} (a : A) (f : A -> res B) : (Ok a ≫= f) = f a.
Proof. reflexivity. Qed.

Lemma for_each_app {A B : Type} (body : B -> A -> res B) acc xs ys :
  for_each body acc (xs ++ ys) =
  (acc' ← for_each body acc xs; for_each body acc' ys).
Proof.
  revert acc. induction xs as [|x xs IH]; intros acc; simpl; [done|].
  destruct (body acc x); simpl; [apply IH | done].
Qed.

Lemma all_str_strings (l : list pystr) : all_str (VStr <$> l) = Ok l.
Proof.
  induction l as [|s l IH]; csimpl; [done|]. rewrite IH. reflexivity.
Qed.

Lemma py_join_strings sep (l : list pystr) :
  py_join sep (VStr <$> l) = Ok (join_with sep l).
Proof. unfold py_join. rewrite all_str_strings. reflexivity. Qed.

Lemma nonempty_fmap {A B : Type} (f : A -> B) (l : list A) :
  nonempty (f <$> l) = nonempty l.
Proof. by destruct l. Qed.

Lemma nonempty_false {A : Type} (l : list A) : nonempty l = false <-> l = [].
Proof. destruct l; simpl; split; congruence. Qed.

Lemma nonempty_true {A : Type} (l : list A) : nonempty l = true <-> l ≠ [].
Proof. destruct l; simpl; split; congruence. Qed.

Lemma texts_of_single chunk :
  texts_of [chunk] =
  if nonempty (chunk_text chunk) then [chunk_text chunk] else [].
Proof.
  unfold texts_of. rewrite fmap_cons, filter_cons, fmap_nil, filter_nil.
  by destruct (chunk_text chunk).
Qed.

Lemma texts_of_cons chunk chunks :
  texts_of (chunk :: chunks) = texts_of [chunk] ++ texts_of chunks.
Proof.
  unfold texts_of. rewrite !fmap_cons, !filter_cons, fmap_nil, filter_nil.
  by destruct (decide (chunk_text chunk ≠ [])).
Qed.

(** One pass of the inner loop on a well-formed chunk. *)
Lemma chunk_step_wf acc chunk :
  wf_chunk chunk ->
  chunk_step acc chunk = Ok (acc ++ (VStr ∘ excerpt <$> texts_of [chunk])).
Proof.
  rewrite texts_of_single.
  destruct chunk as [| | | | |? |d]; simpl; try done.
  unfold chunk_step, field, excerpt, py_in, py_item.
  destruct (assoc (lit "text") d) as [[| | | |s| |]|] eqn:E; simpl; try done;
    intros _.
  - destruct s as [|c s]; simpl.
    + by rewrite app_nil_r.
    + destruct (500 <? S (length s))%nat; reflexivity.
  - by rewrite app_nil_r.
Qed.

Lemma chunk_loop_wf chunks : forall acc,
  Forall wf_chunk chunks ->
  for_each chunk_step acc chunks =
  Ok (acc ++ (VStr ∘ excerpt <$> texts_of chunks)).
Proof.
  induction chunks as [|c cs IH]; intros acc Hwf.
  - simpl. by rewrite app_nil_r.
  - inversion Hwf as [|? ? Hc Hcs]; subst. simpl.
    rewrite (chunk_step_wf _ _ Hc). simpl. rewrite ?bind_ok, (IH _ Hcs).
    by rewrite (texts_of_cons c cs), fmap_app, app_assoc.
Qed.

Lemma page_step_wf acc page :
  wf_page page ->
  page_step acc page =
  Ok (acc ++ (VStr ∘ excerpt <$> texts_of (take 3 (page_chunks page)))).
Proof.
  destruct page as [| | | | |? |d]; simpl; try done.
  unfold page_step. simpl.
  destruct (assoc (lit "chunks") d) as [[| | | | |cs|]|] eqn:E; simpl;
    try done.
  - intros Hwf. apply chunk_loop_wf. by apply Forall_take.
  - intros _. by rewrite app_nil_r.
Qed.

Lemma page_loop_wf pages : forall acc,
  Forall wf_page pages ->
  for_each page_step acc pages =
  Ok (acc ++ (VStr ∘ excerpt <$>
              concat ((fun p => texts_of (take 3 (page_chunks p))) <$> pages))).
Proof.
  induction pages as [|p ps IH]; intros acc Hwf.
  - simpl. by rewrite app_nil_r.
  - inversion Hwf as [|? ? Hp Hps]; subst. simpl.
    rewrite (page_step_wf _ _ Hp). simpl. rewrite ?bind_ok, (IH _ Hps).
    by rewrite fmap_app, app_assoc.
Qed.

Lemma labelled_part_wf d key label parts :
  str_field (assoc (lit key) d) ->
  labelled_part py_repr (VDict d) (lit key) label parts =
  Ok (parts ++ part label (field d key)).
Proof.
  unfold labelled_part, part, field. simpl.
  destruct (assoc (lit key) d) as [[| | | |s| |]|]; simpl; try done; intros _.
  - destruct s; simpl; [by rewrite app_nil_r | done].
  - by rewrite app_nil_r.
Qed.

(** On a well-formed result the builder returns the labelled sections of the
    spec, joined by blank lines, or [None] when there is none. *)
Lemma prepare_chat_context_sections d prompt :
  wf_fields d ->
  prepare_chat_context py_repr (VDict d) prompt =
  Ok (if nonempty (sections d)
      then VStr (join_with (nl ++ nl) (sections d))
      else VNone).
Proof.
  intros (Hs & Ht & Hl & Hp).
  unfold prepare_chat_context. cbn [truthy].
  destruct (nonempty d) eqn:Hd; cbn [negb];
    [|apply nonempty_false in Hd; subst d; reflexivity].
  rewrite (labelled_part_wf _ "fileSummary" _ _ Hs), bind_ok, app_nil_l.
  unfold sections, window_texts, pages_of, py_in, py_item.
  destruct (assoc (lit "documentPages") d) as [[| | | | |ps|]|] eqn:E;
    try done; cbn [bool_decide decide_rel is_Some_dec option_eq_None_dec];
    rewrite ?bind_ok.
  - cbn [truthy]. destruct (nonempty ps) eqn:Hps.
    + cbn [mbind res_bind py_slice py_iter].
      rewrite (page_loop_wf (take 2 ps) []), bind_ok, app_nil_l
        by by apply Forall_take.
      rewrite nonempty_fmap. unfold content_part.
      set (texts := concat _).
      destruct (nonempty texts) eqn:Hne.
      * rewrite list_fmap_compose, py_join_strings, !bind_ok.
        rewrite (labelled_part_wf _ "fileType" _ _ Ht), bind_ok.
        rewrite (labelled_part_wf _ "language" _ _ Hl), bind_ok.
        by rewrite <- !app_assoc.
      * rewrite !bind_ok.
        rewrite (labelled_part_wf _ "fileType" _ _ Ht), bind_ok.
        rewrite (labelled_part_wf _ "language" _ _ Hl), bind_ok.
        by rewrite <- !app_assoc.
    + apply nonempty_false in Hps; subst ps. rewrite !bind_ok.
      rewrite (labelled_part_wf _ "fileType" _ _ Ht), bind_ok.
      rewrite (labelled_part_wf _ "language" _ _ Hl), bind_ok.
      by rewrite <- !app_assoc.
  - rewrite (labelled_part_wf _ "fileType" _ _ Ht), bind_ok.
    rewrite (labelled_part_wf _ "language" _ _ Hl), bind_ok.
    by rewrite <- !app_assoc.
Qed.

Lemma part_nil label text : part label text = [] <-> text = [].
Proof.
  unfold part. destruct text; simpl; split; congruence.
Qed.

Lemma content_part_nil texts : content_part texts = [] <-> texts = [].
Proof.
  unfold content_part. destruct texts; simpl; split; congruence.
Qed.

Lemma sections_nil d :
  sections d = [] <-> nothing_producible (VDict d).
Proof.
  unfold sections, nothing_producible.
  rewrite !app_nil, !part_nil, content_part_nil. tauto.
Qed.

Lemma assoc_some_nonempty k d v : assoc k d = Some v -> nonempty d = true.
Proof. by destruct d. Qed.

Lemma labelled_part_assoc d d' key label parts :
  assoc key d = assoc key d' ->
  labelled_part py_repr (VDict d) key label parts =
  labelled_part py_repr (VDict d') key label parts.
Proof.
  intros H. unfold labelled_part, py_get, py_item. by rewrite H.
Qed.

Lemma page_step_same acc p p' :
  same_page p p' -> page_step acc p = page_step acc p'.
Proof.
  intros [->|(m & m' & cs & cs' & -> & -> & Hm & Hm' & Hcs)]; [done|].
  unfold page_step, py_in, py_item. rewrite Hm, Hm'.
  cbn [mbind res_bind py_slice py_iter]. by rewrite Hcs.
Qed.

Lemma page_loop_same ps ps' :
  Forall2 same_page ps ps' ->
  forall acc, for_each page_step acc ps = for_each page_step acc ps'.
Proof.
  induction 1 as [|p p' ps ps' Hp _ IH]; intros acc; [done|].
  cbn [for_each]. rewrite (page_step_same _ _ _ Hp).
  destruct (page_step acc p'); cbn [mbind res_bind]; [apply IH | done].
Qed.

Lemma take_same_nonempty {A : Type} (R : A -> A -> Prop) n (l l' : list A) :
  Forall2 R (take (S n) l) (take (S n) l') -> nonempty l = nonempty l'.
Proof.
  destruct l, l'; simpl; try done; inversion 1.
Qed.

(** C8: the question has no influence on the builder; for every result and
    any two questions the builder returns the same thing. *)
Theorem prepare_chat_context_ignores_question xray_data q1 q2 :
  prepare_chat_context py_repr xray_data q1 =
  prepare_chat_context py_repr xray_data q2.
Proof. reflexivity. Qed.

(** C6: the builder raises on a result whose optional field is there and
    null.  A page whose [chunks] is [None] makes it raise [TypeError], where
    the claim says that it never raises; the sibling tests of the builder
    do guard [None]: a [documentPages] or a [text] that is [None] is
    skipped. *)
Theorem prepare_chat_context_null_chunks prompt :
  prepare_chat_context py_repr xray_null_chunks prompt = Raise TypeError /\
  prepare_chat_context py_repr xray_null_pages prompt = Ok VNone /\
  prepare_chat_context py_repr xray_null_text prompt = Ok VNone.
Proof. repeat split. Qed.

(** C4: on a well-formed result with a chunk text inside the window, the
    "Document Content" section is the texts of the window, each through the
    truncation law, joined by single spaces: a text of more than 500
    characters contributes its first 500 characters and the ellipsis marker
    (503 characters), a text of at most 500 characters is there verbatim. *)
Theorem prepare_chat_context_truncation d prompt :
  wf_xray (VDict d) ->
  window_texts d ≠ [] ->
  prepare_chat_context py_repr (VDict d) prompt =
  Ok (VStr (join_with (nl ++ nl)
              (part (lit "Summary: ") (field d "fileSummary")
               ++ [lit "Document Content: "
                   ++ join_with (lit " ") (excerpt <$> window_texts d)]
               ++ part (lit "File Type: ") (field d "fileType")
               ++ part (lit "Language: ") (field d "language")))) /\
  forall t, t ∈ window_texts d ->
    ((500 < length t)%nat ->
     excerpt t = take 500 t ++ lit "..." /\ length (excerpt t) = 503%nat) /\
    ((length t <= 500)%nat -> excerpt t = t).
Proof.
  intros Hwf Hne. split.
  - rewrite (prepare_chat_context_sections d prompt Hwf).
    unfold sections, content_part.
    apply nonempty_true in Hne. rewrite Hne.
    by destruct (part (lit "Summary: ") (field d "fileSummary")).
  - intros t _. unfold excerpt. split.
    + intros Hlen. apply Nat.ltb_lt in Hlen as Hb. rewrite Hb. split; [done|].
      rewrite length_app, length_take. change (length (lit "...")) with 3%nat.
      lia.
    + intros Hlen. apply Nat.ltb_ge in Hlen. by rewrite Hlen.
Qed.

(** C5: the builder reads nothing beyond the first 2 pages and the first 3
    chunks of each; two results that agree on those, whatever their later
    pages and chunks are, give the same outcome. *)
Theorem prepare_chat_context_window x x' prompt :
  same_window x x' ->
  prepare_chat_context py_repr x prompt =
  prepare_chat_context py_repr x' prompt.
Proof.
  intros (d & d' & ps & ps' & -> & -> & Hk & Hd & Hd' & Hps).
  assert (Hks : forall key : string,
             lit key ≠ lit "documentPages" ->
             forall label parts,
               labelled_part py_repr (VDict d) (lit key) label parts =
               labelled_part py_repr (VDict d') (lit key) label parts).
  { intros key Hne label parts. apply labelled_part_assoc. by apply Hk. }
  unfold prepare_chat_context. cbn [truthy].
  rewrite (assoc_some_nonempty _ _ _ Hd), (assoc_some_nonempty _ _ _ Hd').
  cbn [negb].
  rewrite (Hks "fileSummary") by (intros H; vm_compute in H; discriminate H).
  destruct (labelled_part py_repr (VDict d') _ _ _) as [parts|];
    cbn [mbind res_bind]; [|done].
  unfold py_in, py_item. rewrite Hd, Hd'.
  cbn [bool_decide decide_rel is_Some_dec mbind res_bind truthy].
  rewrite (take_same_nonempty _ _ _ _ Hps).
  destruct (nonempty ps').
  - cbn [mbind res_bind py_slice py_iter].
    rewrite (page_loop_same _ _ Hps).
    destruct (for_each page_step [] (take 2 ps')) as [texts|];
      cbn [mbind res_bind]; [|done].
    destruct (if nonempty texts then _ else _) as [parts'|];
      cbn [mbind res_bind]; [|done].
    rewrite (Hks "fileType") by (intros H; vm_compute in H; discriminate H).
    destruct (labelled_part py_repr (VDict d') _ _ _) as [parts''|];
      cbn [mbind res_bind]; [|done].
    by rewrite (Hks "language") by (intros H; vm_compute in H; discriminate H).
  - cbn [mbind res_bind].
    rewrite (Hks "fileType") by (intros H; vm_compute in H; discriminate H).
    destruct (labelled_part py_repr (VDict d') _ _ _) as [parts''|];
      cbn [mbind res_bind]; [|done].
    by rewrite (Hks "language") by (intros H; vm_compute in H; discriminate H).
Qed.

End ContextWindowFacts.

Lemma occurs_at_lt sub s i :
  sub ≠ [] -> occurs_at sub s i -> (i < length s)%nat.
Proof.
  unfold occurs_at. intros Hne H.
  destruct (decide (i < length s)%nat) as [|Hge]; [done|].
  rewrite drop_ge in H by lia. rewrite take_nil in H. congruence.
Qed.

Lemma occurs_at_positions sub s i :
  sub ≠ [] -> occurs_at sub s i -> i ∈ positions sub s.
Proof.
  intros Hne H. unfold positions. apply list_elem_of_filter. split; [done|].
  apply elem_of_seq. pose proof (occurs_at_lt _ _ _ Hne H). lia.
Qed.

Lemma example_run py_repr :
  prepare_chat_context py_repr xray_example (VStr (lit "Q")) =
  Ok (VStr context_example).
Proof. reflexivity. Qed.

(** C1: on the worked example the builder returns the four labelled sections
    in the order summary, document content, file type, language; the
    returned string contains "S", "T", "PDF" and "en", in this order. *)
Theorem prepare_chat_context_example py_repr :
  prepare_chat_context py_repr xray_example (VStr (lit "Q")) =
  Ok (VStr context_example) /\
  in_order [lit "S"; lit "T"; lit "PDF"; lit "en"] context_example.
Proof.
  split; [apply example_run|].
  exists 9%nat. split; [lia|]. split; [reflexivity|].
  exists 30%nat. split; [lia|]. split; [reflexivity|].
  exists 44%nat. split; [lia|]. split; [reflexivity|].
  exists 59%nat. split; [lia|]. split; [reflexivity|]. exact I.
Qed.

(** In the string returned on the worked example, "PDF" occurs only after
    every "T": the order "S", "PDF", "en", "T" is not there. *)
Lemma prepare_chat_context_example_order_fails :
  ~ exists py_repr s,
      prepare_chat_context py_repr xray_example (VStr (lit "Q")) =
      Ok (VStr s) /\
      in_order [lit "S"; lit "PDF"; lit "en"; lit "T"] s.
Proof.
  intros (py_repr & s & Hrun & Hord).
  rewrite example_run in Hrun. injection Hrun as <-.
  destruct Hord as (i1 & _ & _ & i2 & _ & H2 & i3 & Hle3 & H3
                    & i4 & Hle4 & H4 & _).
  apply occurs_at_positions in H2; [|done].
  apply occurs_at_positions in H3; [|done].
  apply occurs_at_positions in H4; [|done].
  vm_compute in H2, H3, H4.
  repeat match goal with
         | H : list_elem_of _ _ |- _ => inversion H; subst; clear H
         | H : _ ∈ _ |- _ => inversion H; subst; clear H
         end; lia.
Qed.

Lemma prepare_chat_context_truncation_witness :
  wf_xray (VDict xray_long) /\
  window_texts xray_long ≠ [] /\
  prepare_chat_context no_repr (VDict xray_long) (VStr (lit "Q")) =
  Ok (VStr (join_with (nl ++ nl)
              (part (lit "Summary: ") (field xray_long "fileSummary")
               ++ [lit "Document Content: "
                   ++ join_with (lit " ") (excerpt <$> window_texts xray_long)]
               ++ part (lit "File Type: ") (field xray_long "fileType")
               ++ part (lit "Language: ") (field xray_long "language")))).
Proof.
  assert (Hwf : wf_xray (VDict xray_long)).
  { vm_compute. repeat split; repeat constructor. }
  assert (Hne : window_texts xray_long ≠ []).
  { vm_compute. discriminate. }
  split; [exact Hwf|]. split; [exact Hne|].
  exact (proj1 (prepare_chat_context_truncation no_repr xray_long
                  (VStr (lit "Q")) Hwf Hne)).
Defined.

Lemma prepare_chat_context_window_witness :
  same_window xray_wide xray_wide' /\
  prepare_chat_context no_repr xray_wide (VStr (lit "Q")) =
  prepare_chat_context no_repr xray_wide' (VStr (lit "Q")).
Proof.
  assert (Hsame : same_window xray_wide xray_wide').
  { eexists _, _, _, _. split; [reflexivity|]. split; [reflexivity|].
    split; [|split; [reflexivity|split; [reflexivity|]]].
    - intros k Hk. cbn [assoc]. by rewrite !decide_False by done.
    - cbn [take]. constructor; [|by repeat constructor].
      right. eexists _, _, _, _. repeat split; reflexivity. }
  split; [exact Hsame|].
  exact (prepare_chat_context_window no_repr _ _ (VStr (lit "Q")) Hsame).
Defined.

(** ** Properties of the chat turn generator *)

Section ChatTurnFacts.

Variable py_repr : value -> pystr.
Variable exc_text : exn -> pystr.

Lemma try_except_ok {A : Type} (body : res A) (handler : exn -> A) :
  exists a, try_except body (fun e => Ok (handler e)) = Ok a.
Proof. destruct body; simpl; eauto. Qed.



End ChatTurnFacts.




(** ** Properties of the session state *)

Lemma foldl_delete_lookup (keys : list string) : forall (ss : session) k,
  foldl (fun ss key => delete key ss) ss keys !! k =
  if decide (k ∈ keys) then None else ss !! k.
Proof.
  induction keys as [|key keys IH]; intros ss k; cbn [foldl].
  - by rewrite decide_False by apply not_elem_of_nil.
  - rewrite IH. destruct (decide (k = key)) as [->|Hne].
    + rewrite lookup_delete_eq.
      rewrite (decide_True (P := key ∈ key :: keys))
        by (apply elem_of_cons; auto).
      by case_decide.
    + rewrite lookup_delete_ne by done.
      destruct (decide (k ∈ keys)) as [Hin|Hnin].
      * by rewrite decide_True by (apply elem_of_cons; auto).
      * rewrite decide_False; [done|]. rewrite elem_of_cons. tauto.
Qed.

Lemma reset_analysis_lookup ss k :
  reset_analysis ss !! k =
  if decide (k ∈ keys_to_delete) then None else ss !! k.
Proof. apply foldl_delete_lookup. Qed.

Lemma foldl_init_lookup (keys : list string) : forall (ss : session) k,
  foldl (fun ss key =>
           match ss !! key with
           | Some _ => ss
           | None => <[key := initial_value key]> ss
           end) ss keys !! k =
  match ss !! k with
  | Some v => Some v
  | None => if decide (k ∈ keys) then Some (initial_value k) else None
  end.
Proof.
  induction keys as [|key keys IH]; intros ss k; cbn [foldl].
  - rewrite decide_False by apply not_elem_of_nil. by destruct (ss !! k).
  - rewrite IH. destruct (decide (k = key)) as [->|Hne].
    + rewrite (decide_True (P := key ∈ key :: keys)) by (apply elem_of_cons; auto).
      destruct (ss !! key) eqn:E; [by rewrite E|].
      by rewrite lookup_insert_eq.
    + assert (Hiff : k ∈ key :: keys <-> k ∈ keys)
        by (rewrite elem_of_cons; tauto).
      destruct (ss !! key) eqn:E.
      * destruct (ss !! k); [done|]. by apply decide_ext.
      * rewrite lookup_insert_ne by done.
        destruct (ss !! k); [done|]. by apply decide_ext.
Qed.

Lemma init_state_lookup ss k :
  init_state ss !! k =
  match ss !! k with
  | Some v => Some v
  | None => if decide (k ∈ initial_keys) then Some (initial_value k) else None
  end.
Proof. apply foldl_init_lookup. Qed.

Lemma init_state_truthy ss k :
  truthy (default VNone (init_state ss !! k)) =
  truthy (default VNone (ss !! k)).
Proof.
  rewrite init_state_lookup. destruct (ss !! k); [done|].
  case_decide; [|done]. unfold initial_value. by case_decide.
Qed.

(** *** Relations that every piece of the script keeps *)

Section Satisfies.

Context (R : relation (session * list call)) `{!PreOrder R}.

Lemma sat_ret {A : Type} (a : A) : satisfies R (mret a).
Proof. intros ss log. reflexivity. Qed.

Lemma sat_end {A : Type} how : satisfies R (@end_run A how).
Proof. intros ss log. reflexivity. Qed.

Lemma sat_lift {A : Type} (r : res A) : satisfies R (lift r).
Proof. destruct r; [apply sat_ret | apply sat_end]. Qed.

Lemma sat_get key : satisfies R (state_get key).
Proof. intros ss log. reflexivity. Qed.

Lemma sat_has key : satisfies R (state_has key).
Proof. intros ss log. reflexivity. Qed.

Lemma sat_bind {A B : Type} (m : run A) (f : A -> run B) :
  satisfies R m -> (forall a, satisfies R (f a)) -> satisfies R (m ≫= f).
Proof.
  intros Hm Hf ss log. specialize (Hm ss log).
  unfold mbind, run_bind.
  destruct (m ss log) as [[[a|how] ss'] log']; cbn [fst snd] in *; [|done].
  etrans; [exact Hm|]. apply Hf.
Qed.

(** A piece that goes on with [a] and changes nothing can be skipped. *)
Lemma sat_bind_pure {A B : Type} (m : run A) (f : A -> run B) a :
  (forall ss log, m ss log = (Next a, ss, log)) ->
  satisfies R (f a) -> satisfies R (m ≫= f).
Proof.
  intros Hm Hf ss log. unfold mbind, run_bind. rewrite Hm. apply Hf.
Qed.

Lemma sat_set key v :
  (forall ss log, R (ss, log) (<[key := v]> ss, log)) ->
  satisfies R (state_set key v).
Proof. intros H ss log. apply H. Qed.

Lemma sat_modify f :
  (forall ss log, R (ss, log) (f ss, log)) -> satisfies R (modify f).
Proof. intros H ss log. apply H. Qed.

Lemma sat_called_all cs :
  (forall ss log, R (ss, log) (ss, log ++ cs)) -> satisfies R (called_all cs).
Proof. intros H ss log. apply H. Qed.

Lemma sat_called c :
  (forall ss log, R (ss, log) (ss, log ++ [c])) -> satisfies R (called c).
Proof. intros H ss log. apply H. Qed.

End Satisfies.

(** Splits a piece of the script into its primitive steps; [side] proves
    that a write or a call keeps the relation. *)
Ltac sat_steps side :=
  repeat first
    [ assumption
    | match goal with
      | H : forall c, satisfies _ _ |- satisfies _ _ => solve [apply H]
      end
    | progress unfold then_, when
    | solve [apply sat_ret; apply _] | solve [apply sat_end; apply _]
    | solve [apply sat_lift; apply _] | solve [apply sat_get; apply _]
    | solve [apply sat_has; apply _]
    | apply sat_set; side
    | apply sat_modify; side
    | apply sat_called; side
    | apply sat_called_all; side
    | progress rewrite andb_false_r
    | match goal with
      | H : forall ss log, ?m ss log = _ |- satisfies _ (?m ≫= _) =>
          eapply sat_bind_pure; [exact H|]
      end
    | apply sat_bind; [apply _| |intros ?]
    | match goal with
      | |- satisfies _ (match ?x with _ => _ end) => destruct x
      end ].

#[global] Instance no_document_call_preorder : PreOrder no_document_call.
Proof.
  split; [by intros ?|]. intros x y z Hxy Hyz. unfold no_document_call in *.
  congruence.
Qed.

Lemma document_calls_app log cs :
  document_calls (log ++ cs) = document_calls log ++ document_calls cs.
Proof. apply filter_app. Qed.

Lemma document_calls_posts (rs : list request) :
  document_calls (Post <$> rs) = [].
Proof.
  induction rs as [|r rs IH]; [done|]. rewrite fmap_cons.
  unfold document_calls in *. by rewrite filter_cons_False by (simpl; congruence).
Qed.

Ltac no_document_side :=
  intros ? ?; unfold no_document_call; cbn [fst snd];
  rewrite ?document_calls_app, ?document_calls_posts, ?app_nil_r;
  reflexivity.

#[global] Instance one_lookup_preorder : PreOrder one_lookup.
Proof.
  split.
  - intros [ss log]. unfold one_lookup. cbn [fst snd]. repeat split; auto; lia.
  - intros [s1 l1] [s2 l2] [s3 l3]. unfold one_lookup. cbn [fst snd].
    intros (H12 & Hset12 & Hone12) (H23 & Hset23 & Hone23).
    assert (Hcases : lookups l2 = lookups l1 \/
                     lookups l2 = (lookups l1 + 1)%nat) by lia.
    split; [|split].
    + destruct Hcases as [?|Hplus]; [lia|].
      destruct (Hset23 (Hone12 Hplus)); lia.
    + intros H1. destruct (Hset12 H1) as [H2 ?].
      destruct (Hset23 H2) as [H3 ?]. split; [done|lia].
    + intros H13. destruct Hcases as [?|Hplus].
      * apply Hone23. lia.
      * by destruct (Hset23 (Hone12 Hplus)).
Qed.






Section ScriptFacts.

Variable py_repr : value -> pystr.
Variable exc_text : exn -> pystr.

Lemma chat_no_document_call w ui :
  satisfies no_document_call (chat py_repr exc_text w ui).
Proof.
  unfold chat. sat_steps no_document_side.
Qed.

Lemma process_no_document_call w ui :
  satisfies no_document_call (process w ui no_client).
Proof.
  unfold process. sat_steps no_document_side.
Qed.

Lemma auto_load_no_document_call w :
  satisfies no_document_call (auto_load w no_client).
Proof.
  unfold auto_load. sat_steps no_document_side.
Qed.

Lemma connect_no_key w :
  GROUNDX_API_KEY w = None \/ GROUNDX_API_KEY w = Some [] \/
  GROUNDX_API_KEY w = Some placeholder ->
  forall ss log, connect exc_text w ss log = (Next no_client, ss, log).
Proof.
  intros [H|[H|H]] ss log; unfold connect; rewrite H; reflexivity.
Qed.

Lemma script_no_document_call w ui :
  GROUNDX_API_KEY w = None \/ GROUNDX_API_KEY w = Some [] \/
  GROUNDX_API_KEY w = Some placeholder ->
  satisfies no_document_call (script py_repr exc_text w ui).
Proof.
  intros Hkey. pose proof (connect_no_key w Hkey) as Hconnect.
  pose proof (auto_load_no_document_call w) as Hload.
  pose proof (process_no_document_call w ui) as Hprocess.
  pose proof (chat_no_document_call w ui) as Hchat.
  unfold script. sat_steps no_document_side.
Qed.







(** C9: when [GROUNDX_API_KEY] is missing, empty or the placeholder, the
    block that connects to the document API does not raise and creates no
    client; [gx] and [bucket_id] stay unset, processing is marked unavailable
    and the remediation message is recorded, with the session state and the
    log of calls untouched, and the whole run makes no call to the document
    API. *)
Theorem connect_without_key w ui ss log :
  GROUNDX_API_KEY w = None \/ GROUNDX_API_KEY w = Some [] \/
  GROUNDX_API_KEY w = Some placeholder ->
  connect exc_text w ss log =
  (Next {| gx := false; bucket_id := VNone; groundx_available := false;
           groundx_error := VStr key_error_message |}, ss, log) /\
  document_calls (script py_repr exc_text w ui ss log).2 = document_calls log.
Proof.
  intros Hkey. split.
  - by apply connect_no_key.
  - apply (script_no_document_call w ui Hkey ss log).
Qed.



Lemma reprocess_lookup ss key :
  reprocess ss !! key =
  if decide (key = "auto_loaded_file"%string) then Some (VBool false)
  else if decide (key = "used_existing_file"%string) then Some (VBool false)
  else if decide (key = "xray_data"%string) then Some VNone
  else if decide (key = "processing_complete"%string) then Some (VBool false)
  else ss !! key.
Proof.
  unfold reprocess. repeat case_decide; subst; by simplify_map_eq.
Qed.

Lemma script_reprocess w ui ss log :
  clear_clicked ui = false -> reprocess_clicked ui = true ->
  truthy (default VNone (ss !! "uploaded_file_name")) = true ->
  script py_repr exc_text w ui ss log =
  (End Rerun, reprocess (init_state ss), log).
Proof.
  intros Hclear Hreprocess Hname. unfold script.
  rewrite Hclear, Hreprocess.
  unfold then_, when, modify, mbind, run_bind, mret, run_ret, state_get,
    end_run.
  rewrite init_state_truthy, Hname. reflexivity.
Qed.

(** C2: "Clear Analysis" removes every key of the analysis, the chat history
    and the file name, type and path among them, so that the run it starts
    finds the result, the chat history and the three flags cleared.
    "Re-process File" clears the result and the three flags and leaves every
    other key, the chat history among them, as it was, and ends the run at
    once with no call to a collaborator. *)
Theorem clear_and_reprocess w ui ss log :
  (forall key, key ∈ keys_to_delete -> reset_analysis ss !! key = None) /\
  (clear_clicked ui = true ->
   script py_repr exc_text w ui ss log =
   script py_repr exc_text w (after_callback ui) (reset_analysis ss) log) /\
  Forall (cleared (init_state (reset_analysis ss)))
    ["xray_data"; "chat_history"; "used_existing_file"; "auto_loaded_file";
     "processing_complete"]%string /\
  Forall (cleared (reprocess ss))
    ["xray_data"; "used_existing_file"; "auto_loaded_file";
     "processing_complete"]%string /\
  (forall key,
     key ∉ ["xray_data"; "used_existing_file"; "auto_loaded_file";
            "processing_complete"]%string ->
     reprocess ss !! key = ss !! key) /\
  (clear_clicked ui = false -> reprocess_clicked ui = true ->
   truthy (default VNone (ss !! "uploaded_file_name")) = true ->
   script py_repr exc_text w ui ss log =
   (End Rerun, reprocess (init_state ss), log)).
Proof.
  repeat apply conj.
  - intros key Hkey. rewrite reset_analysis_lookup. by rewrite decide_True.
  - intros Hclear. unfold script. rewrite Hclear. reflexivity.
  - repeat constructor; unfold cleared;
      rewrite init_state_lookup, reset_analysis_lookup; reflexivity.
  - repeat constructor; unfold cleared; rewrite reprocess_lookup; reflexivity.
  - intros key Hkey. rewrite reprocess_lookup.
    repeat case_decide; subst; try done; exfalso; apply Hkey;
      repeat first [ apply list_elem_of_here | apply list_elem_of_further ].
  - apply script_reprocess.
Qed.

End ScriptFacts.

(** After a click on "Re-process File" the chat history of the session is
    still there. *)
Lemma reprocess_keeps_chat_history :
  ~ exists py_repr exc_text,
      cleared (script py_repr exc_text world_found click_reprocess
                 session_with_chat []).1.2 "chat_history".
Proof.
  intros (py_repr & exc_text & H).
  rewrite script_reprocess in H by reflexivity.
  unfold cleared in H. cbn [fst snd] in H.
  rewrite reprocess_lookup, init_state_lookup in H.
  vm_compute in H. discriminate H.
Qed.




Lemma connect_without_key_witness :
  (GROUNDX_API_KEY world_no_key = None \/
   GROUNDX_API_KEY world_no_key = Some [] \/
   GROUNDX_API_KEY world_no_key = Some placeholder) /\
  connect no_text world_no_key ∅ [] = (Next no_client, ∅, []) /\
  document_calls (script no_repr no_text world_no_key idle ∅ []).2 =
  document_calls [].
Proof.
  assert (Hkey : GROUNDX_API_KEY world_no_key = None \/
                 GROUNDX_API_KEY world_no_key = Some [] \/
                 GROUNDX_API_KEY world_no_key = Some placeholder)
    by (left; reflexivity).
  split; [exact Hkey|].
  exact (connect_without_key no_repr no_text world_no_key idle ∅ [] Hkey).
Defined.

Lemma clear_and_reprocess_witness :
  clear_clicked click_reprocess = false /\
  reprocess_clicked click_reprocess = true /\
  truthy (default VNone (session_with_chat !! "uploaded_file_name")) = true /\
  script no_repr no_text world_found click_reprocess session_with_chat [] =
  (End Rerun, reprocess (init_state session_with_chat), []).
Proof.
  split; [reflexivity|]. split; [reflexivity|]. split; [reflexivity|].
  destruct (clear_and_reprocess no_repr no_text world_found click_reprocess
              session_with_chat []) as (_ & _ & _ & _ & _ & Hrun).
  exact (Hrun eq_refl eq_refl eq_refl).
Defined.

(** ** The tests of the repository, and the edges of the data model *)

Example test_prepare_chat_context_none py_repr :
  prepare_chat_context py_repr VNone (VStr (lit "test")) = Ok VNone.
Proof. reflexivity. Qed.

Example test_prepare_chat_context_empty py_repr :
  prepare_chat_context py_repr (VDict []) (VStr (lit "test")) = Ok VNone.
Proof. reflexivity. Qed.

Example test_prepare_chat_context_valid py_repr :
  exists result,
    prepare_chat_context py_repr xray_test (VStr (lit "test")) =
    Ok (VStr result) /\
    infixb (lit "Test summary") result = true /\
    infixb (lit "PDF") result = true.
Proof. eexists. repeat split. Qed.

Example test_generate_chat_response_no_api_key py_repr exc_text reply :
  exists result,
    generate_chat_response py_repr exc_text None reply
      (VStr (lit "test question")) (VStr (lit "test context")) =
    ([], Ok (VStr result)) /\
    infixb (lit "OPENROUTER_API_KEY") result = true /\
    infixb (lit "Error") result = true.
Proof. eexists. repeat split. Qed.

(** A 200 response whose first choice has no message ends in the handler. *)
Example missing_message py_repr exc_text prompt context :
  (generate_chat_response py_repr exc_text (Some (lit "k"))
     (Response 200
        (Ok (VDict [ (lit "choices", VList [ VDict [] ]) ])))
     prompt context).2 =
  Ok (VStr (trouble_error ++ exc_text (KeyError (VStr (lit "message"))))).
Proof. reflexivity. Qed.

(** The run that "Clear Analysis" starts makes the lookup again. *)
Example lookup_again_after_clear :
  lookups (session_runs no_repr no_text steps_with_clear ∅ []).2 = 2%nat.
Proof. vm_compute. reflexivity. Qed.

(** A 200 response whose content is [None] is returned as it is. *)
Example null_content py_repr exc_text prompt context :
  (generate_chat_response py_repr exc_text (Some (lit "k"))
     (Response 200
        (Ok (VDict [ (lit "choices",
                      VList [ VDict [ (lit "message",
                                       VDict [ (lit "content", VNone) ]) ] ]) ])))
     prompt context).2 = Ok VNone.
Proof. reflexivity. Qed.

(** ** More of the script: the session keys and the connection *)

(** X1: after the initialisation loop each of its seven keys is present, with
    the value it had or else its initial value; no other key changes; and
    running the loop again changes nothing. *)
Theorem init_state_complete ss :
  (forall key, key ∈ initial_keys ->
     init_state ss !! key = Some (default (initial_value key) (ss !! key))) /\
  (forall key, key ∉ initial_keys -> init_state ss !! key = ss !! key) /\
  init_state (init_state ss) = init_state ss.
Proof.
  repeat apply conj.
  - intros key Hkey. rewrite init_state_lookup.
    destruct (ss !! key); [done|]. by rewrite decide_True.
  - intros key Hkey. rewrite init_state_lookup.
    destruct (ss !! key); [done|]. by rewrite decide_False.
  - apply map_eq. intros key. rewrite !init_state_lookup.
    destruct (ss !! key); [done|]. by case_decide.
Qed.

(** X2: "Clear Analysis" puts the session back to a fresh one on the keys of
    the analysis: after the callback and the initialisation loop they read as
    in a session that starts empty; the other keys keep their values; and a
    second clear changes nothing. *)
Theorem clear_gives_fresh_state ss :
  (forall key, key ∈ keys_to_delete ->
     init_state (reset_analysis ss) !! key = init_state ∅ !! key) /\
  (forall key, key ∉ keys_to_delete ->
     reset_analysis ss !! key = ss !! key) /\
  reset_analysis (reset_analysis ss) = reset_analysis ss.
Proof.
  repeat apply conj.
  - intros key Hkey.
    rewrite !init_state_lookup, reset_analysis_lookup, lookup_empty.
    by rewrite decide_True.
  - intros key Hkey. rewrite reset_analysis_lookup. by rewrite decide_False.
  - apply map_eq. intros key. rewrite !reset_analysis_lookup. by case_decide.
Qed.






Lemma encode_from_ok s : forall i,
  encodable s -> exists bytes, encode_from i s = Ok bytes.
Proof.
  induction s as [|c s IH]; intros i Hs; [by eexists|].
  inversion Hs as [|? ? Hc Hrest]; subst. cbn [encode_from]. rewrite Hc.
  destruct (IH (S i) Hrest) as [bytes ->]. by eexists.
Qed.

Lemma encode_from_raises s : forall i,
  ~ encodable s -> exists text, encode_from i s = Raise (Raised true text).
Proof.
  induction s as [|c s IH]; intros i Hs.
  - destruct Hs. constructor.
  - cbn [encode_from]. destruct (is_surrogate c) eqn:Hc; [by eexists|].
    destruct (IH (S i)) as [text ->]; [|by eexists].
    intros Hrest. apply Hs. by constructor.
Qed.

#[global] Instance encodable_dec s : Decision (encodable s).
Proof. unfold encodable. apply _. Defined.

Ltac connect_sides :=
  repeat apply conj;
  first [ done
        | by eauto
        | by rewrite <- app_assoc
        | by intros; destruct_and?; simplify_eq
        | by intros; destruct_and?; destruct_and!; simplify_eq
        | by intros Hnot; exfalso; apply Hnot; repeat split
        | by intros ? ?; rewrite lookup_insert_ne
        | by intros _; repeat split; eauto
        | by intros (_ & _ & _ & ? & ?)
        | idtac ].

Section ConnectFacts.

Variable py_repr : value -> pystr.
Variable exc_text : exn -> pystr.

Lemma connect_normalized w :
  connect exc_text w =
  match normalized_key w with
  | [] => mret no_client
  | key =>
      if decide (key = placeholder) then mret no_client
      else
        match py_encode key with
        | Raise e => mret (connect_failed exc_text false e)
        | Ok _ =>
            state_set "last_api_key_hash" (VStr (md5_hexdigest w));;
            called CreateClient;;
            match create_client_reply w with
            | Raise e => mret (connect_failed exc_text false e)
            | Ok _ =>
                called EnsureBucket;;
                match ensure_bucket_reply w with
                | Raise e => mret (connect_failed exc_text true e)
                | Ok b =>
                    mret {| gx := true; bucket_id := b;
                            groundx_available := true;
                            groundx_error := VNone |}
                end
            end
        end
  end.
Proof.
  unfold connect, normalized_key, bom.
  destruct (GROUNDX_API_KEY w) as [[|c k]|]; try reflexivity.
  by destruct (lstrip _ _).
Qed.

Lemma connect_cases w ss log :
  exists c ss' log',
    connect exc_text w ss log = (Next c, ss', log') /\
    (groundx_available c = true <->
     usable_key w /\ encodable (normalized_key w) /\
     create_client_reply w = Ok tt /\
     exists b, ensure_bucket_reply w = Ok b) /\
    (groundx_available c = true ->
     gx c = true /\ groundx_error c = VNone /\
     ensure_bucket_reply w = Ok (bucket_id c) /\
     log' = log ++ [CreateClient; EnsureBucket]) /\
    (groundx_available c = false ->
     bucket_id c = VNone /\ exists text, groundx_error c = VStr text) /\
    (~ (usable_key w /\ encodable (normalized_key w)) ->
     gx c = false /\ ss' = ss /\ log' = log) /\
    (forall key, key ≠ "last_api_key_hash"%string -> ss' !! key = ss !! key).
Proof.
  rewrite connect_normalized. unfold usable_key.
  destruct (normalized_key w) as [|c k] eqn:Hkey.
  { eexists _, _, _. split; [reflexivity|]. cbn. connect_sides. }
  destruct (decide (c :: k = placeholder)) as [Heq|Hne].
  { eexists _, _, _. split; [reflexivity|]. cbn. connect_sides. }
  destruct (decide (encodable (c :: k))) as [Henc|Henc].
  2: { destruct (encode_from_raises (c :: k) 0 Henc) as [text Htext].
       unfold py_encode. rewrite Htext.
       eexists _, _, _. split; [reflexivity|]. cbn. connect_sides. }
  destruct (encode_from_ok (c :: k) 0 Henc) as [bytes Hbytes].
  unfold py_encode. rewrite Hbytes.
  unfold then_, mbind, run_bind, state_set, called, mret, run_ret.
  destruct (create_client_reply w) as [[]|e] eqn:Hcreate;
    [destruct (ensure_bucket_reply w) as [b|e] eqn:Hbucket|];
    (eexists _, _, _; split; [reflexivity|]); cbn; connect_sides.
Qed.

(** X3: the block that connects to the document API always goes on to the
    rest of the script, whatever the encoding of the key for its hash,
    [create_client] and [ensure_bucket] raise.  Processing is available
    exactly when the key is usable, UTF-8 can encode it and both calls
    return, and then [gx] and the bucket of [ensure_bucket] are set, no
    error is recorded and the two calls were made; otherwise no bucket is
    set and an error message is recorded.  When the key is not usable or
    cannot be encoded, no client is created, no call is made and the session
    is left as it was.  The block writes no key but [last_api_key_hash]. *)
Theorem connect_outcome w ss log :
  exists c ss' log',
    connect exc_text w ss log = (Next c, ss', log') /\
    (groundx_available c = true <->
     usable_key w /\ encodable (normalized_key w) /\
     create_client_reply w = Ok tt /\
     exists b, ensure_bucket_reply w = Ok b) /\
    (groundx_available c = true ->
     gx c = true /\ groundx_error c = VNone /\
     ensure_bucket_reply w = Ok (bucket_id c) /\
     log' = log ++ [CreateClient; EnsureBucket]) /\
    (groundx_available c = false ->
     bucket_id c = VNone /\ exists text, groundx_error c = VStr text) /\
    (~ (usable_key w /\ encodable (normalized_key w)) ->
     gx c = false /\ ss' = ss /\ log' = log) /\
    (forall key, key ≠ "last_api_key_hash"%string -> ss' !! key = ss !! key).
Proof. apply connect_cases. Qed.



End ConnectFacts.

(** *** Runs without a client *)

Lemma sat_bind_post {A B : Type} (R : relation (session * list call))
    `{!PreOrder R} (P : A -> Prop) (m : run A) (f : A -> run B) :
  satisfies R m ->
  (forall ss log a ss' log', m ss log = (Next a, ss', log') -> P a) ->
  (forall a, P a -> satisfies R (f a)) ->
  satisfies R (m ≫= f).
Proof.
  intros Hm HP Hf ss log. specialize (Hm ss log). specialize (HP ss log).
  unfold mbind, run_bind.
  destruct (m ss log) as [[[a|how] ss'] log']; cbn [fst snd] in *; [|done].
  etrans; [exact Hm|]. apply Hf. by eapply HP.
Qed.

#[global] Instance no_data_call_preorder : PreOrder no_data_call.
Proof.
  split; [by intros ?|]. intros x y z Hxy Hyz. unfold no_data_call in *.
  congruence.
Qed.

Lemma data_calls_app log cs :
  data_calls (log ++ cs) = data_calls log ++ data_calls cs.
Proof. apply filter_app. Qed.

Lemma data_calls_posts (rs : list request) : data_calls (Post <$> rs) = [].
Proof.
  induction rs as [|r rs IH]; [done|]. rewrite fmap_cons.
  unfold data_calls in *. by rewrite filter_cons_False by (simpl; congruence).
Qed.

Ltac no_data_side :=
  intros ? ?; unfold no_data_call; cbn [fst snd];
  rewrite ?data_calls_app, ?data_calls_posts, ?app_nil_r;
  reflexivity.

(** As [sat_steps], with what is known of the client once the script has
    connected. *)
Ltac sat_walk side :=
  repeat first
    [ assumption
    | match goal with
      | H : forall c, _ -> satisfies _ _ |- satisfies _ _ => solve [eauto]
      | H : forall c, satisfies _ _ |- satisfies _ _ => solve [apply H]
      end
    | progress unfold then_, when
    | solve [apply sat_ret; apply _] | solve [apply sat_end; apply _]
    | solve [apply sat_lift; apply _] | solve [apply sat_get; apply _]
    | solve [apply sat_has; apply _]
    | apply sat_set; side
    | apply sat_modify; side
    | apply sat_called; side
    | apply sat_called_all; side
    | progress rewrite andb_false_r
    | match goal with
      | H : forall ss log a ss' log', ?m ss log = (Next a, ss', log') -> _
        |- satisfies _ (?m ≫= _) =>
          eapply sat_bind_post;
            [apply _| |exact H|cbv beta; intros ? ?; destruct_and?]
      end
    | apply sat_bind; [apply _| |intros ?]
    | match goal with
      | |- satisfies _ (match ?x with _ => _ end) => destruct x
      end ].

Section ClientFacts.

Variable py_repr : value -> pystr.
Variable exc_text : exn -> pystr.

Lemma connect_no_data_call w : satisfies no_data_call (connect exc_text w).
Proof. unfold connect. sat_walk no_data_side. Qed.

Lemma chat_no_data_call w ui :
  satisfies no_data_call (chat py_repr exc_text w ui).
Proof. unfold chat. sat_walk no_data_side. Qed.

Lemma auto_load_no_bucket w c :
  bucket_id c = VNone -> satisfies no_data_call (auto_load w c).
Proof.
  intros Hbucket. unfold auto_load. rewrite Hbucket. cbn [truthy].
  sat_walk no_data_side.
Qed.

Lemma process_unavailable w ui c :
  groundx_available c = false -> satisfies no_data_call (process w ui c).
Proof.
  intros Hc. unfold process. rewrite Hc. cbn [negb].
  sat_walk no_data_side.
Qed.

Lemma script_no_client w ui :
  ~ (usable_key w /\ create_client_reply w = Ok tt /\
     exists b, ensure_bucket_reply w = Ok b) ->
  satisfies no_data_call (script py_repr exc_text w ui).
Proof.
  intros Hno.
  assert (Hpost : forall ss log c ss' log',
             connect exc_text w ss log = (Next c, ss', log') ->
             groundx_available c = false /\ bucket_id c = VNone).
  { intros ss log c ss' log' Hrun.
    destruct (connect_cases exc_text w ss log)
      as (c0 & ss0 & log0 & Hrun0 & Hiff & _ & Hoff & _).
    rewrite Hrun in Hrun0. injection Hrun0 as <- <- <-.
    destruct (groundx_available c) eqn:Hav.
    - exfalso. apply Hno.
      destruct (proj1 Hiff eq_refl) as (Hkey & _ & Hcreate & Hbucket).
      done.
    - split; [done|]. by apply Hoff. }
  pose proof (connect_no_data_call w) as Hconnect.
  pose proof (chat_no_data_call w ui) as Hchat.
  pose proof (fun c => auto_load_no_bucket w c) as Hload.
  pose proof (fun c => process_unavailable w ui c) as Hprocess.
  unfold script. sat_walk no_data_side.
Qed.

(** X5: when no client is available, because the key is not usable or
    because [create_client] or [ensure_bucket] raises, the run looks no
    document up, fetches no result and processes no file. *)
Theorem script_without_client w ui ss log :
  ~ (usable_key w /\ create_client_reply w = Ok tt /\
     exists b, ensure_bucket_reply w = Ok b) ->
  data_calls (script py_repr exc_text w ui ss log).2 = data_calls log.
Proof. intros Hno. apply (script_no_client w ui Hno ss log). Qed.

End ClientFacts.

(** *** A loaded result, and the document calls of one run *)

#[global] Instance keeps_result_preorder : PreOrder keeps_result.
Proof.
  split; [by intros ? ?|]. intros [s1 l1] [s2 l2] [s3 l3].
  unfold keeps_result, loaded. cbn [fst snd]. intros H12 H23 H1.
  destruct (H12 H1) as [Hx Hd]. rewrite <- Hx in H1.
  destruct (H23 H1) as [Hx' Hd']. split; congruence.
Qed.

Lemma keeps_result_write ss ss' log cs :
  (loaded ss -> ss' !! "xray_data" = ss !! "xray_data") ->
  data_calls cs = [] ->
  keeps_result (ss, log) (ss', log ++ cs).
Proof.
  intros Hx Hcs Hloaded. cbn [fst snd].
  rewrite data_calls_app, Hcs, app_nil_r. auto.
Qed.

Lemma init_state_loaded ss :
  loaded ss -> init_state ss !! "xray_data" = ss !! "xray_data".
Proof.
  unfold loaded. intros H. rewrite init_state_lookup.
  by destruct (ss !! "xray_data").
Qed.

Ltac keeps_result_side :=
  intros ? ?;
  first
    [ apply keeps_result_write;
      [ intros ?; first [ reflexivity | by apply init_state_loaded
                        | by rewrite lookup_insert_ne by done
                        | by rewrite lookup_delete_ne by done ]
      | first [ reflexivity | apply data_calls_posts ] ]
    | rewrite <- (app_nil_r _) at 2; apply keeps_result_write;
      [ intros ?; first [ reflexivity | by apply init_state_loaded
                        | by rewrite lookup_insert_ne by done
                        | by rewrite lookup_delete_ne by done ]
      | reflexivity ] ].

Lemma truthy_not_none v : truthy v = true -> is_none v = false.
Proof. by destruct v. Qed.

Section ResultFacts.

Variable py_repr : value -> pystr.
Variable exc_text : exn -> pystr.

Lemma auto_load_keeps_result w c : satisfies keeps_result (auto_load w c).
Proof.
  intros ss log Hloaded. unfold loaded in Hloaded. cbn [fst snd] in Hloaded.
  unfold auto_load, mbind, run_bind, state_get.
  rewrite Hloaded. cbn [negb]. by rewrite andb_false_r.
Qed.

Lemma process_keeps_result w ui c : satisfies keeps_result (process w ui c).
Proof.
  intros ss log Hloaded. unfold loaded in Hloaded. cbn [fst snd] in Hloaded.
  apply truthy_not_none in Hloaded.
  unfold process, then_, mbind, run_bind, state_get, state_set, lift, end_run,
    mret, run_ret.
  destruct (uploaded ui) as [[name type]|]; cbn [fst snd].
  - destruct (temp_file_reply w) as [path|e]; cbn [fst snd]; [|done].
    rewrite lookup_insert_ne by done. rewrite Hloaded. cbn [andb fst snd].
    by rewrite lookup_insert_ne by done.
  - rewrite Hloaded, andb_false_r. done.
Qed.

Lemma connect_keeps_result w : satisfies keeps_result (connect exc_text w).
Proof. unfold connect. sat_walk keeps_result_side. Qed.

Lemma chat_keeps_result w ui :
  satisfies keeps_result (chat py_repr exc_text w ui).
Proof. unfold chat. sat_walk keeps_result_side. Qed.

Lemma script_keeps_result w ui :
  no_reset (w, ui) -> satisfies keeps_result (script py_repr exc_text w ui).
Proof.
  intros [Hclear Hreprocess]. cbn [fst snd] in *.
  pose proof (connect_keeps_result w) as Hconnect.
  pose proof (auto_load_keeps_result w) as Hload.
  pose proof (process_keeps_result w ui) as Hprocess.
  pose proof (chat_keeps_result w ui) as Hchat.
  unfold script. rewrite Hclear, Hreprocess.
  sat_walk keeps_result_side.
Qed.

(** X6: once a result is loaded, the runs that follow keep it and make no
    lookup, fetch or processing call, whatever file is uploaded meanwhile,
    until "Clear Analysis" or "Re-process File" is clicked. *)
Theorem loaded_result_is_kept steps ss log :
  Forall no_reset steps ->
  loaded ss ->
  (session_runs py_repr exc_text steps ss log).1 !! "xray_data" =
  ss !! "xray_data" /\
  data_calls (session_runs py_repr exc_text steps ss log).2 = data_calls log.
Proof.
  intros Hsteps. revert ss log.
  induction Hsteps as [|[w ui] steps Hstep _ IH]; intros ss log Hloaded;
    [done|].
  cbn [session_runs].
  pose proof (script_keeps_result w ui Hstep ss log Hloaded) as [Hx Hd].
  destruct (script py_repr exc_text w ui ss log) as [[o ss'] log'].
  cbn [fst snd] in *.
  assert (Hloaded' : loaded ss') by (unfold loaded; by rewrite Hx).
  destruct (IH ss' log' Hloaded') as [Hx' Hd']. split; congruence.
Qed.

End ResultFacts.

(** A piece that makes no document call, then a piece that adds some. *)
Lemma sat_bind_adds {A B : Type} allowed (m : run A) (f : A -> run B) :
  allowed [] ->
  satisfies no_data_call m ->
  (forall a, satisfies (adds allowed) (f a)) ->
  satisfies (adds allowed) (m ≫= f).
Proof.
  intros Hnil Hm Hf ss log. specialize (Hm ss log).
  unfold mbind, run_bind, no_data_call, adds in *.
  destruct (m ss log) as [[[a|how] ss'] log']; cbn [fst snd] in *.
  - destruct (Hf a ss' log') as (new & Hnew & Hok). cbn [fst snd] in Hnew.
    exists new. by rewrite Hnew, Hm.
  - exists []. by rewrite app_nil_r.
Qed.

Ltac adds_calls :=
  eexists;
  split; [ rewrite ?data_calls_app, <- ?app_assoc; reflexivity
         | cbn; first [ done | split; done ] ].

Section ProtocolFacts.

Variable py_repr : value -> pystr.
Variable exc_text : exn -> pystr.

(** The block that loads an existing document: it goes on after no call or
    after a lookup alone, and ends the run after a lookup or a lookup and a
    fetch. *)
Lemma auto_load_adds w c ss log :
  exists new,
    data_calls (auto_load w c ss log).2 = data_calls log ++ new /\
    match (auto_load w c ss log).1.1 with
    | Next _ => only_lookup new
    | End _ => allowed_data new /\ new ≠ []
    end.
Proof.
  unfold auto_load, then_, mbind, run_bind, state_get, state_set, called.
  destruct (gx c && _ && _ && _).
  - destruct (check_file_exists_reply w) as [id|e];
      cbn [lift mret run_ret end_run].
    + destruct (truthy id).
      * destruct (get_xray_reply w) as [xray|e];
          cbn [lift mret run_ret end_run fst snd]; adds_calls.
      * cbn [fst snd]. adds_calls.
    + cbn [fst snd]. adds_calls.
  - exists []. by rewrite app_nil_r.
Qed.

Lemma process_adds w ui c : satisfies (adds only_process) (process w ui c).
Proof.
  intros ss log. unfold adds, process, then_, mbind, run_bind, state_get,
    state_set, called, lift, end_run, mret, run_ret.
  destruct (uploaded ui) as [[name type]|]; cbn [fst snd];
    try (destruct (temp_file_reply w) as [path|e0]; cbn [fst snd]);
    repeat match goal with
           | |- context [if ?b then _ else _] => destruct b; cbn [fst snd]
           end;
    try destruct (process_document_reply w) as [[xray used]|e];
    cbn [fst snd];
    first [ by exists []; rewrite app_nil_r | adds_calls ].
Qed.

Lemma script_tail_adds w ui c :
  satisfies (adds allowed_data)
    (auto_load w c;; process w ui c;; chat py_repr exc_text w ui).
Proof.
  intros ss log.
  destruct (auto_load_adds w c ss log) as (new1 & Hnew1 & Hshape1).
  unfold adds, then_, mbind, run_bind.
  destruct (auto_load w c ss log) as [[[[]|how] ss1] log1]; cbn [fst snd] in *.
  - pose proof (process_adds w ui c ss1 log1) as (new2 & Hnew2 & Hshape2).
    destruct (process w ui c ss1 log1) as [[[[]|how] ss2] log2];
      cbn [fst snd] in *.
    + pose proof (chat_no_data_call py_repr exc_text w ui ss2 log2) as Hchat.
      unfold no_data_call in Hchat. cbn [fst snd] in Hchat.
      exists (new1 ++ new2). rewrite Hchat, Hnew2, Hnew1, app_assoc.
      split; [done|].
      destruct new1 as [|[] [|]]; try done;
        destruct new2 as [|[] [|]]; done.
    + exists (new1 ++ new2). rewrite Hnew2, Hnew1, app_assoc. split; [done|].
      destruct new1 as [|[] [|]]; try done;
        destruct new2 as [|[] [|]]; done.
  - exists new1. by destruct Hshape1.
Qed.

Lemma script_adds w ui :
  satisfies (adds allowed_data) (script py_repr exc_text w ui).
Proof.
  pose proof (connect_no_data_call exc_text w) as Hconnect.
  unfold script.
  repeat (unfold then_ at 1;
          apply sat_bind_adds;
          [ done | solve [sat_walk no_data_side] | intros ? ]).
  apply script_tail_adds.
Qed.

(** X7: the document calls of one run are, in this order, at most one lookup
    and then at most one of the fetch of the document found and the
    processing of a file: a run never processes a file after it has fetched
    an existing document, and never processes twice. *)
Theorem run_document_calls w ui ss log :
  exists new,
    data_calls (script py_repr exc_text w ui ss log).2 =
    data_calls log ++ new /\
    allowed_data new.
Proof. apply (script_adds w ui ss log). Qed.

End ProtocolFacts.

(** *** The block that processes a file *)

(** X8: no exception of [process_document] leaves the processing block, and
    the block never restarts the script.  The only exception that leaves it
    is one raised while the upload is written to its temporary file: it ends
    the run before any call and before any write to the session, and it is
    the outcome whenever a file is uploaded and that write raises.  The
    block stops the run only when no client is available, before any call.
    It calls [process_document] at most once; when the call raises, no
    result is stored and [processing_complete] is set to [False]; when it
    returns, its result and its flag are stored and [processing_complete]
    is set to [True]. *)
Theorem process_outcome w ui c ss log :
  exists o ss' log',
    process w ui c ss log = (o, ss', log') /\
    (o = Next tt \/
     o = End Stopped /\ groundx_available c = false /\ log' = log \/
     exists e, o = End (Crashed e) /\ is_Some (uploaded ui) /\
               temp_file_reply w = Raise e /\ ss' = ss /\ log' = log) /\
    (forall e, is_Some (uploaded ui) -> temp_file_reply w = Raise e ->
               o = End (Crashed e)) /\
    (log' = log /\ ss' !! "xray_data" = ss !! "xray_data" \/
     exists file_name file_path,
       log' = log ++ [ProcessDocument (bucket_id c) file_name file_path] /\
       o = Next tt /\
       match process_document_reply w with
       | Ok (xray, used_existing) =>
           ss' !! "xray_data" = Some xray /\
           ss' !! "processing_complete" = Some (VBool true) /\
           ss' !! "used_existing_file" = Some used_existing
       | Raise _ =>
           ss' !! "xray_data" = ss !! "xray_data" /\
           ss' !! "processing_complete" = Some (VBool false)
       end).
Proof.
  unfold process, then_, mbind, run_bind, state_get, state_set, called,
    lift, end_run, mret, run_ret.
  destruct (uploaded ui) as [[name type]|]; cbn [fst snd].
  - destruct (temp_file_reply w) as [path|e0] eqn:Htmp; cbn [fst snd].
    2: { eexists _, _, _. split; [reflexivity|].
         split; [right; right; by eauto 10|].
         split; [by intros e _ [= ->]|]. by left. }
    repeat match goal with
           | |- context [if ?b then _ else _] =>
               let E := fresh "E" in destruct b eqn:E; cbn [fst snd]
           end;
      try destruct (process_document_reply w) as [[xray used]|e];
      cbn [fst snd];
      eexists _, _, _; (split; [reflexivity|]);
      try (apply negb_true_iff in E0);
      (split; [by auto|]);
      (split; [done|]);
      first [ left; split; [done|]; by rewrite ?lookup_insert_ne by done
            | right; eexists _, _; split; [reflexivity|]; split; [done|];
              by simplify_map_eq ].
  - repeat match goal with
           | |- context [if ?b then _ else _] =>
               let E := fresh "E" in destruct b eqn:E; cbn [fst snd]
           end;
      try destruct (process_document_reply w) as [[xray used]|e];
      cbn [fst snd];
      eexists _, _, _; (split; [reflexivity|]);
      try (apply negb_true_iff in E0);
      (split; [by auto|]);
      (split; [by intros ? []|]);
      first [ left; split; [done|]; by rewrite ?lookup_insert_ne by done
            | right; eexists _, _; split; [reflexivity|]; split; [done|];
              by simplify_map_eq ].
Qed.

(** *** The chat *)

#[global] Instance extends_history_preorder : PreOrder extends_history.
Proof.
  split.
  - intros [ss log] turns H. exists []. by rewrite app_nil_r.
  - intros [s1 l1] [s2 l2] [s3 l3] H12 H23 turns H1.
    destruct (H12 turns H1) as [more H2].
    destruct (H23 _ H2) as [more' H3].
    exists (more ++ more'). by rewrite app_assoc.
Qed.

Lemma extends_history_write ss ss' log log' :
  ss' !! "chat_history" = ss !! "chat_history" ->
  extends_history (ss, log) (ss', log').
Proof.
  intros Hsame turns H. exists []. cbn [fst snd] in *.
  by rewrite app_nil_r, Hsame.
Qed.

Ltac extends_history_side :=
  intros ? ?; apply extends_history_write;
  first [ reflexivity
        | by rewrite lookup_insert_ne by done
        | by rewrite lookup_delete_ne by done
        | by rewrite reprocess_lookup
        | by rewrite !init_state_lookup;
          repeat case_match; simplify_eq; try done ].

Section ChatFacts.

Variable py_repr : value -> pystr.
Variable exc_text : exn -> pystr.

Lemma generate_chat_response_returns api_key reply prompt context :
  exists r,
    (generate_chat_response py_repr exc_text api_key reply prompt context).2 =
    Ok r.
Proof.
  unfold generate_chat_response.
  destruct api_key as [[|c k]|]; cbn [snd]; eauto using try_except_ok.
Qed.

Lemma chat_extends_history w ui :
  satisfies extends_history (chat py_repr exc_text w ui).
Proof.
  intros ss log turns Hturns. cbn [fst snd] in *.
  unfold chat, then_, when, mbind, run_bind, state_get, state_set, state_has,
    called_all, mret, run_ret.
  destruct (truthy (default VNone (ss !! "xray_data")));
    [|exists []; by rewrite app_nil_r].
  destruct (display py_repr _) as [[]|e];
    cbn [lift mret run_ret end_run fst snd];
    [|exists []; by rewrite app_nil_r].
  destruct (OPENROUTER_API_KEY w) as [[|c k]|] eqn:Hkey;
    try (exists []; by rewrite app_nil_r).
  rewrite Hturns, bool_decide_true by eauto.
  cbn [negb mret run_ret fst snd default].
  rewrite Hturns. cbn [default from_option id].
  destruct (render_history _) as [[]|e];
    cbn [lift mret run_ret end_run fst snd];
    [|exists []; by rewrite app_nil_r].
  destruct (chat_input ui) as [[|p ps]|];
    try (exists []; by rewrite app_nil_r).
  rewrite Hturns.
  cbn [default from_option id py_append lift mret run_ret fst snd].
  destruct (prepare_chat_context py_repr _ _) as [context|e];
    cbn [lift mret run_ret end_run fst snd];
    [|eexists; by rewrite lookup_insert_eq].
  destruct (generate_chat_response py_repr exc_text _ _ _ _)
    as [posted [response|e]];
    cbn [lift mret run_ret end_run fst snd];
    [|eexists; by rewrite lookup_insert_eq].
  rewrite lookup_insert_eq.
  cbn [default from_option id py_append lift mret run_ret fst snd].
  eexists. rewrite lookup_insert_eq, <- app_assoc. reflexivity.
Qed.

Lemma connect_extends_history w :
  satisfies extends_history (connect exc_text w).
Proof. unfold connect. sat_walk extends_history_side. Qed.

Lemma auto_load_extends_history w c :
  satisfies extends_history (auto_load w c).
Proof. unfold auto_load. sat_walk extends_history_side. Qed.

Lemma process_extends_history w ui c :
  satisfies extends_history (process w ui c).
Proof. unfold process. sat_walk extends_history_side. Qed.

Lemma script_extends_history w ui :
  clear_clicked ui = false ->
  satisfies extends_history (script py_repr exc_text w ui).
Proof.
  intros Hclear.
  pose proof (connect_extends_history w) as Hconnect.
  pose proof (auto_load_extends_history w) as Hload.
  pose proof (process_extends_history w ui) as Hprocess.
  pose proof (chat_extends_history w ui) as Hchat.
  unfold script. rewrite Hclear.
  sat_walk extends_history_side.
Qed.

(** X9: the chat history is append-only: over runs that no click on "Clear
    Analysis" starts, whatever else is clicked, uploaded or asked and however
    the runs end, the turns already in the history stay at its front, in
    order. *)
Theorem chat_history_append_only steps ss log turns :
  Forall (fun step => clear_clicked step.2 = false) steps ->
  ss !! "chat_history" = Some (VList turns) ->
  exists more,
    (session_runs py_repr exc_text steps ss log).1 !! "chat_history" =
    Some (VList (turns ++ more)).
Proof.
  intros Hsteps. revert ss log turns.
  induction Hsteps as [|[w ui] steps Hstep _ IH]; intros ss log turns Hturns.
  - exists []. by rewrite app_nil_r.
  - cbn [session_runs].
    pose proof (script_extends_history w ui Hstep ss log turns Hturns)
      as [more Hmore].
    destruct (script py_repr exc_text w ui ss log) as [[o ss'] log'].
    cbn [fst snd] in Hmore.
    destruct (IH ss' log' _ Hmore) as [more' Hmore'].
    exists (more ++ more'). by rewrite app_assoc.
Qed.

End ChatFacts.

(** *** The size of the context, and the tabs *)

Lemma join_with_length sep (l : list pystr) :
  length (join_with sep l) =
  (sum_list (length <$> l) + length sep * pred (length l))%nat.
Proof.
  induction l as [|s [|s' l] IH]; [cbn; lia|cbn; lia|].
  change (join_with sep (s :: s' :: l))
    with (s ++ sep ++ join_with sep (s' :: l)).
  rewrite !length_app, IH.
  cbn [fmap list_fmap sum_list sum_list_with length pred id]. nia.
Qed.

Lemma excerpt_length t : (length (excerpt t) <= 503)%nat.
Proof.
  unfold excerpt. destruct (500 <? length t)%nat eqn:E.
  - rewrite length_app, length_take. change (length (lit "...")) with 3%nat.
    lia.
  - apply Nat.ltb_ge in E. lia.
Qed.

Lemma texts_of_length chunks : (length (texts_of chunks) <= length chunks)%nat.
Proof.
  unfold texts_of. etrans; [apply length_filter|]. by rewrite length_fmap.
Qed.

Lemma window_texts_length d : (length (window_texts d) <= 6)%nat.
Proof.
  unfold window_texts.
  assert (Hpage : forall page,
             (length (texts_of (take 3 (page_chunks page))) <= 3)%nat).
  { intros page. etrans; [apply texts_of_length|]. rewrite length_take. lia. }
  destruct (pages_of d) as [|p1 [|p2 pages]].
  - cbn. lia.
  - cbn [take fmap list_fmap concat]. rewrite app_nil_r.
    pose proof (Hpage p1). lia.
  - cbn [take fmap list_fmap concat]. rewrite take_0.
    cbn [fmap list_fmap concat]. rewrite app_nil_r, length_app.
    pose proof (Hpage p1). pose proof (Hpage p2). lia.
Qed.

Lemma sum_excerpts texts :
  (sum_list (length <$> (excerpt <$> texts)) <= 503 * length texts)%nat.
Proof.
  induction texts as [|t texts IH]; [done|].
  cbn [fmap list_fmap sum_list sum_list_with length id] in *.
  pose proof (excerpt_length t). lia.
Qed.

Lemma content_part_length texts :
  (length texts <= 6)%nat ->
  (sum_list (length <$> content_part texts) <= 3041)%nat.
Proof.
  intros Hlen. unfold content_part.
  destruct (nonempty texts); [|cbn; lia].
  cbn [fmap list_fmap sum_list sum_list_with id].
  rewrite length_app, join_with_length, length_fmap.
  change (length (lit "Document Content: ")) with 18%nat.
  change (length (lit " ")) with 1%nat.
  pose proof (sum_excerpts texts). lia.
Qed.

Lemma part_length label text :
  (sum_list (length <$> part label text) <= length label + length text)%nat /\
  (length (part label text) <= 1)%nat.
Proof.
  unfold part. destruct (nonempty text); cbn; rewrite ?length_app; lia.
Qed.

Section SizeFacts.

Variable py_repr : value -> pystr.

(** X11: on a well-formed result the builder returns the sections that are
    there, each under its label, in the order summary, document content,
    file type, language, joined by blank lines; and [None] when there is
    none. *)
Theorem prepare_chat_context_order d prompt :
  wf_xray (VDict d) ->
  prepare_chat_context py_repr (VDict d) prompt =
  Ok (if nonempty (sections d)
      then VStr (join_with (nl ++ nl)
                   (part (lit "Summary: ") (field d "fileSummary")
                    ++ content_part (window_texts d)
                    ++ part (lit "File Type: ") (field d "fileType")
                    ++ part (lit "Language: ") (field d "language")))
      else VNone).
Proof. intros Hwf. by rewrite prepare_chat_context_sections. Qed.

(** X12: the size of the context does not depend on the size of the
    document: on a well-formed result the string returned has at most 3077
    characters more than the summary, the file type and the language
    together, however many pages, chunks and characters the document has. *)
Theorem prepare_chat_context_size d prompt :
  wf_xray (VDict d) ->
  exists r,
    prepare_chat_context py_repr (VDict d) prompt = Ok r /\
    (r = VNone \/
     exists s, r = VStr s /\
       (length s <= length (field d "fileSummary")
                    + length (field d "fileType")
                    + length (field d "language") + 3077)%nat).
Proof.
  intros Hwf. rewrite prepare_chat_context_sections by done.
  eexists. split; [reflexivity|].
  destruct (nonempty (sections d)); [right|by left].
  eexists. split; [reflexivity|].
  rewrite join_with_length. unfold sections.
  rewrite !fmap_app, !sum_list_with_app, !length_app.
  change (length nl) with 1%nat.
  pose proof (part_length (lit "Summary: ") (field d "fileSummary")) as [? ?].
  pose proof (part_length (lit "File Type: ") (field d "fileType")) as [? ?].
  pose proof (part_length (lit "Language: ") (field d "language")) as [? ?].
  pose proof (content_part_length _ (window_texts_length d)).
  assert (length (content_part (window_texts d)) <= 1)%nat
    by (unfold content_part; destruct (nonempty _); cbn; lia).
  change (length (lit "Summary: ")) with 9%nat in *.
  change (length (lit "File Type: ")) with 11%nat in *.
  change (length (lit "Language: ")) with 10%nat in *.
  lia.
Qed.

End SizeFacts.

Lemma walk_chunk_text acc chunk :
  wf_chunk chunk ->
  walk_chunk (lit "text") false acc chunk =
  Ok (acc ++ (VStr <$> texts_of [chunk])).
Proof.
  rewrite texts_of_single.
  destruct chunk as [| | | | |? |d]; simpl; try done.
  unfold walk_chunk, field, py_in, py_item.
  destruct (assoc (lit "text") d) as [[| | | |s| |]|] eqn:E; simpl; try done;
    intros _.
  - destruct s as [|c s]; simpl; [by rewrite app_nil_r | done].
  - by rewrite app_nil_r.
Qed.

Lemma walk_chunks_text chunks : forall acc,
  Forall wf_chunk chunks ->
  for_each (walk_chunk (lit "text") false) acc chunks =
  Ok (acc ++ (VStr <$> texts_of chunks)).
Proof.
  induction chunks as [|c cs IH]; intros acc Hwf.
  - simpl. by rewrite app_nil_r.
  - inversion Hwf as [|? ? Hc Hcs]; subst. cbn [for_each].
    rewrite (walk_chunk_text _ _ Hc). cbn [mbind res_bind].
    rewrite (IH _ Hcs).
    by rewrite (texts_of_cons c cs), fmap_app, app_assoc.
Qed.

Lemma walk_page_text acc page :
  wf_page page ->
  walk_page (lit "text") false acc page =
  Ok (acc ++ (VStr <$> texts_of (page_chunks page))).
Proof.
  destruct page as [| | | | |? |d]; simpl; try done.
  unfold walk_page, py_in, py_item.
  destruct (assoc (lit "chunks") d) as [[| | | | |cs|]|] eqn:E; simpl;
    try done.
  - intros Hwf. by apply walk_chunks_text.
  - intros _. by rewrite app_nil_r.
Qed.

Lemma walk_pages_text pages : forall acc,
  Forall wf_page pages ->
  for_each (walk_page (lit "text") false) acc pages =
  Ok (acc ++ (VStr <$>
              concat ((fun p => texts_of (page_chunks p)) <$> pages))).
Proof.
  induction pages as [|p ps IH]; intros acc Hwf.
  - simpl. by rewrite app_nil_r.
  - inversion Hwf as [|? ? Hp Hps]; subst. cbn [for_each].
    rewrite (walk_page_text _ _ Hp). cbn [mbind res_bind].
    rewrite (IH _ Hps). cbn [fmap list_fmap concat].
    by rewrite fmap_app, app_assoc.
Qed.

Lemma extracted_texts_wf d :
  wf_fields d -> extracted_texts (VDict d) = Ok (VStr <$> all_texts d).
Proof.
  intros (_ & _ & _ & Hpages).
  unfold extracted_texts, walk, all_texts, pages_of, py_in, py_item.
  destruct (assoc (lit "documentPages") d) as [[| | | | |ps|]|]; try done.
  cbn [bool_decide decide_rel is_Some_dec mbind res_bind py_iter].
  by rewrite walk_pages_text.
Qed.

Lemma filter_sublist {A : Type} (P : A -> Prop) `{!forall x, Decision (P x)}
    (l1 l2 : list A) :
  l1 `sublist_of` l2 -> filter P l1 `sublist_of` filter P l2.
Proof.
  induction 1 as [|x l1 l2 _ IH|x l1 l2 _ IH]; [done| |];
    rewrite ?filter_cons; destruct (decide (P x));
    auto using sublist_skip, sublist_cons.
Qed.

Lemma texts_of_sublist chunks chunks' :
  chunks `sublist_of` chunks' -> texts_of chunks `sublist_of` texts_of chunks'.
Proof.
  intros H. unfold texts_of. apply filter_sublist. by apply fmap_sublist.
Qed.

Lemma window_sublist (pages : list value) n :
  concat ((fun p => texts_of (take 3 (page_chunks p))) <$> take n pages)
  `sublist_of` concat ((fun p => texts_of (page_chunks p)) <$> pages).
Proof.
  revert n. induction pages as [|p ps IH]; intros n.
  - by rewrite take_nil.
  - destruct n as [|n]; [apply sublist_nil_l|].
    cbn [take fmap list_fmap concat]. apply sublist_app; [|apply IH].
    apply texts_of_sublist, sublist_take.
Qed.

Lemma split_on_length sep s :
  length (split_on sep s) = S (length (filter (fun c => c = sep) s)).
Proof.
  induction s as [|c s IH]; [done|]. cbn [split_on]. rewrite filter_cons.
  destruct (decide (c = sep)); cbn [length]; [by rewrite IH|].
  destruct (split_on sep s); [done|]. by rewrite <- IH.
Qed.

(** X13: the "Extracted Text" tab shows every non-empty chunk text of a
    well-formed result, whole and in document order, joined by a rule; the
    texts the context builder reads are a sublist of them. *)
Theorem extracted_texts_all d :
  wf_xray (VDict d) ->
  extracted_texts (VDict d) = Ok (VStr <$> all_texts d) /\
  combined_text (VDict d) =
  Ok (if nonempty (all_texts d)
      then Some (join_with (nl ++ nl ++ lit "---" ++ nl ++ nl) (all_texts d))
      else None) /\
  window_texts d `sublist_of` all_texts d.
Proof.
  intros Hwf. repeat apply conj.
  - by apply extracted_texts_wf.
  - unfold combined_text. rewrite extracted_texts_wf by done.
    cbn [mbind res_bind]. rewrite nonempty_fmap.
    destruct (nonempty (all_texts d)); [|done].
    by rewrite py_join_strings.
  - apply window_sublist.
Qed.

(** X14: the metrics above the tabs.  "Pages" is the number of pages of the
    result, 0 when there is no page list; "Keywords" is 0 when
    [fileKeywords] is absent or empty and otherwise one more than the number
    of commas in it, so that a trailing comma counts one more keyword. *)
Theorem result_metrics d :
  wf_xray (VDict d) ->
  str_field (assoc (lit "fileKeywords") d) ->
  pages_metric (VDict d) = Ok (length (pages_of d)) /\
  keywords_metric (VDict d) =
  Ok (if nonempty (field d "fileKeywords")
      then S (commas (field d "fileKeywords"))
      else 0%nat).
Proof.
  intros (_ & _ & _ & Hpages) Hkeywords. split.
  - unfold pages_metric, py_get_or, pages_of.
    by destruct (assoc (lit "documentPages") d) as [[| | | | |ps|]|].
  - unfold keywords_metric, py_get, py_get_or, field, commas.
    destruct (assoc (lit "fileKeywords") d) as [[| | | |s| |]|]; try done.
    cbn [default from_option id text_of truthy mbind res_bind].
    destruct (nonempty s); [|done].
    cbn [mbind res_bind py_split]. by rewrite split_on_length.
Qed.

(** X15: the block that loads an existing document ends in one of three
    ways.  It goes on to the rest of the script, having changed at most
    [auto_loaded_file]; or it restarts the script, and then the lookup found
    a document, the fetch returned, the result fetched and the flags of a
    complete analysis of an existing file are stored and the log has the
    lookup and the fetch; or an exception of the lookup or of the fetch
    ends the run, and then the session is as before, so that nothing marks
    the attempt. *)
Theorem auto_load_outcome w c ss log :
  exists o ss' log',
    auto_load w c ss log = (o, ss', log') /\
    (o = Next tt \/ o = End Rerun \/ exists e, o = End (Crashed e)) /\
    (o = Next tt ->
     forall key, key ≠ "auto_loaded_file"%string -> ss' !! key = ss !! key) /\
    (o = End Rerun ->
     exists id xray,
       check_file_exists_reply w = Ok id /\ truthy id = true /\
       get_xray_reply w = Ok xray /\
       ss' !! "xray_data" = Some xray /\
       ss' !! "uploaded_file_name" =
       Some (VStr (default sample_file_default (SAMPLE_FILE_NAME w))) /\
       ss' !! "uploaded_file_type" = Some (VStr (lit "application/pdf")) /\
       ss' !! "processing_complete" = Some (VBool true) /\
       ss' !! "used_existing_file" = Some (VBool true) /\
       ss' !! "auto_loaded_file" = Some (VBool true) /\
       log' = log ++ [CheckFileExists (bucket_id c)
                        (default sample_file_default (SAMPLE_FILE_NAME w));
                      GetXray id (bucket_id c)]) /\
    (forall e, o = End (Crashed e) ->
     ss' = ss /\
     (check_file_exists_reply w = Raise e \/ get_xray_reply w = Raise e)).
Proof.
  unfold auto_load, then_, mbind, run_bind, state_get, state_set, called,
    lift, end_run, mret, run_ret.
  cbn [fst snd].
  destruct (gx c && truthy (bucket_id c)
            && negb (truthy (default VNone (ss !! "auto_loaded_file")))
            && negb (truthy (default VNone (ss !! "xray_data")))) eqn:E;
    cbn [fst snd].
  2: { eexists _, _, _. split; [reflexivity|]. repeat split; auto; done. }
  destruct (check_file_exists_reply w) as [id|e] eqn:Hid; cbn [fst snd].
  2: { eexists _, _, _. split; [reflexivity|].
       repeat split; eauto; try done. all: intros; simplify_eq; auto. }
  destruct (truthy id) eqn:Htruthy; cbn [fst snd].
  2: { eexists _, _, _. split; [reflexivity|].
       repeat split; eauto; try done.
       intros _ key Hkey. by rewrite lookup_insert_ne. }
  destruct (get_xray_reply w) as [xray|e] eqn:Hxray; cbn [fst snd].
  - eexists _, _, _. split; [reflexivity|].
    split; [by auto|]. split; [done|]. split; [|done].
    intros _. exists id, xray. rewrite <- app_assoc.
    repeat split; try done; by simplify_map_eq.
  - eexists _, _, _. split; [reflexivity|].
    repeat split; eauto; try done. all: intros; simplify_eq; auto.
Qed.

Lemma walk_chunk_truthy key acc chunk acc' :
  Forall (fun v => truthy v = true) acc ->
  walk_chunk key false acc chunk = Ok acc' ->
  Forall (fun v => truthy v = true) acc'.
Proof.
  intros Hacc. unfold walk_chunk.
  destruct (py_in key chunk) as [[]|]; cbn [mbind res_bind]; try done.
  - destruct (py_item chunk key) as [v|]; cbn [mbind res_bind]; [|done].
    destruct (truthy v) eqn:Hv; intros [= <-]; [|done].
    apply Forall_app. split; [done|]. by constructor.
  - by intros [= <-].
Qed.

Lemma for_each_invariant {A B : Type} (P : A -> Prop)
    (f : A -> B -> res A) (items : list B) :
  (forall acc x acc', P acc -> f acc x = Ok acc' -> P acc') ->
  forall acc acc', P acc -> for_each f acc items = Ok acc' -> P acc'.
Proof.
  intros Hstep. induction items as [|x xs IH]; intros acc acc' Hacc.
  - by intros [= <-].
  - cbn [for_each]. destruct (f acc x) as [acc1|] eqn:E;
      cbn [mbind res_bind]; [|done].
    apply IH. by eapply Hstep.
Qed.

Lemma walk_page_truthy key acc page acc' :
  Forall (fun v => truthy v = true) acc ->
  walk_page key false acc page = Ok acc' ->
  Forall (fun v => truthy v = true) acc'.
Proof.
  intros Hacc. unfold walk_page.
  destruct (py_in (lit "chunks") page) as [[]|]; cbn [mbind res_bind];
    try done.
  - destruct (py_item page (lit "chunks")) as [chunks|];
      cbn [mbind res_bind]; [|done].
    destruct (py_iter chunks) as [items|]; cbn [mbind res_bind]; [|done].
    apply for_each_invariant; [|done].
    intros ? ? ?. apply walk_chunk_truthy.
  - by intros [= <-].
Qed.

(** X16: the "Suggested Text" and "Extracted Text" tabs never show an empty
    entry: whatever the shape of the result, when the walk returns, every
    value it has collected is truthy. *)
Theorem walk_collects_truthy key xray found :
  walk key false xray = Ok found ->
  Forall (fun v => truthy v = true) found.
Proof.
  unfold walk.
  destruct (py_in (lit "documentPages") xray) as [[]|];
    cbn [mbind res_bind]; try done.
  - destruct (py_item xray (lit "documentPages")) as [pages|];
      cbn [mbind res_bind]; [|done].
    destruct (py_iter pages) as [items|]; cbn [mbind res_bind]; [|done].
    apply for_each_invariant; [|done].
    intros ? ? ?. apply walk_page_truthy.
  - by intros [= <-].
Qed.

Lemma walk_chunk_narrative acc chunk :
  narrative_list chunk ->
  walk_chunk (lit "narrative") true acc chunk =
  Ok (acc ++ narratives_of chunk).
Proof.
  destruct chunk as [| | | | |? |d]; simpl; try done.
  unfold walk_chunk, py_in, py_item.
  destruct (assoc (lit "narrative") d) as [[| | | | |items|]|] eqn:E; simpl;
    try done; intros _.
  - destruct items; simpl; [by rewrite app_nil_r | done].
  - by rewrite app_nil_r.
Qed.

Lemma walk_chunks_narrative chunks : forall acc,
  Forall narrative_list chunks ->
  for_each (walk_chunk (lit "narrative") true) acc chunks =
  Ok (acc ++ concat (narratives_of <$> chunks)).
Proof.
  induction chunks as [|c cs IH]; intros acc Hlists.
  - simpl. by rewrite app_nil_r.
  - inversion Hlists as [|? ? Hc Hcs]; subst. cbn [for_each].
    rewrite (walk_chunk_narrative _ _ Hc). cbn [mbind res_bind].
    rewrite (IH _ Hcs). cbn [fmap list_fmap concat]. by rewrite app_assoc.
Qed.

Lemma walk_page_narrative acc page :
  wf_page page ->
  Forall narrative_list (page_chunks page) ->
  walk_page (lit "narrative") true acc page =
  Ok (acc ++ concat (narratives_of <$> page_chunks page)).
Proof.
  destruct page as [| | | | |? |d]; simpl; try done.
  unfold walk_page, page_chunks, py_in, py_item.
  destruct (assoc (lit "chunks") d) as [[| | | | |cs|]|] eqn:E; simpl;
    try done.
  - intros _ Hlists. by apply walk_chunks_narrative.
  - intros _ _. by rewrite app_nil_r.
Qed.

Lemma walk_pages_narrative pages : forall acc,
  Forall wf_page pages ->
  Forall narrative_list (concat (page_chunks <$> pages)) ->
  for_each (walk_page (lit "narrative") true) acc pages =
  Ok (acc ++ concat (narratives_of <$> concat (page_chunks <$> pages))).
Proof.
  induction pages as [|p ps IH]; intros acc Hwf Hlists.
  - simpl. by rewrite app_nil_r.
  - inversion Hwf as [|? ? Hp Hps]; subst.
    cbn [fmap list_fmap concat] in Hlists.
    apply Forall_app in Hlists as [Hl Hls]. cbn [for_each].
    rewrite (walk_page_narrative _ _ Hp Hl). cbn [mbind res_bind].
    rewrite (IH _ Hps Hls). cbn [fmap list_fmap concat].
    by rewrite fmap_app, concat_app, app_assoc.
Qed.

(** X17: the "Narrative Summary" tab.  On a well-formed result in which the
    [narrative] of each chunk is absent or a list, the tab shows the items of
    these lists, spliced together in document order, whatever the items
    are. *)
Theorem narratives_spliced d :
  wf_xray (VDict d) ->
  Forall narrative_list (all_chunks d) ->
  narratives (VDict d) = Ok (concat (narratives_of <$> all_chunks d)).
Proof.
  intros (_ & _ & _ & Hpages).
  unfold narratives, walk, all_chunks, pages_of, py_in, py_item.
  destruct (assoc (lit "documentPages") d) as [[| | | | |ps|]|]; try done.
  cbn [bool_decide decide_rel is_Some_dec mbind res_bind py_iter].
  intros Hlists. by rewrite walk_pages_narrative.
Qed.

(** *** One turn of the chat *)

Lemma walk_chunk_returns key acc d :
  exists acc', walk_chunk key false acc (VDict d) = Ok acc'.
Proof.
  unfold walk_chunk, py_in, py_item.
  destruct (assoc key d) as [v|]; cbn; [|by eexists].
  destruct (truthy v); by eexists.
Qed.

Lemma walk_chunks_return key chunks : forall acc,
  Forall wf_chunk chunks ->
  exists acc', for_each (walk_chunk key false) acc chunks = Ok acc'.
Proof.
  induction chunks as [|c cs IH]; intros acc Hwf; [by eexists|].
  inversion Hwf as [|? ? Hc Hcs]; subst. cbn [for_each].
  destruct c as [| | | | | |d]; try done.
  destruct (walk_chunk_returns key acc d) as [acc1 ->]. cbn [mbind res_bind].
  by apply IH.
Qed.

Lemma walk_pages_return key pages : forall acc,
  Forall wf_page pages ->
  exists acc', for_each (walk_page key false) acc pages = Ok acc'.
Proof.
  induction pages as [|p ps IH]; intros acc Hwf; [by eexists|].
  inversion Hwf as [|? ? Hp Hps]; subst. cbn [for_each].
  assert (exists acc1, walk_page key false acc p = Ok acc1) as [acc1 ->].
  { destruct p as [| | | | | |d]; try done. simpl in Hp.
    unfold walk_page, py_in, py_item.
    destruct (assoc (lit "chunks") d) as [[| | | | |cs|]|]; simpl; try done;
      [|by eexists].
    by apply walk_chunks_return. }
  cbn [mbind res_bind]. by apply IH.
Qed.

Lemma walk_returns key d :
  wf_fields d -> exists found, walk key false (VDict d) = Ok found.
Proof.
  intros (_ & _ & _ & Hpages). unfold walk, py_in, py_item.
  destruct (assoc (lit "documentPages") d) as [[| | | | |ps|]|]; try done;
    cbn; [|by eexists].
  by apply walk_pages_return.
Qed.

Lemma narratives_return d :
  wf_fields d -> Forall narrative_list (all_chunks d) ->
  exists found, narratives (VDict d) = Ok found.
Proof.
  intros (_ & _ & _ & Hpages).
  unfold narratives, walk, all_chunks, pages_of, py_in, py_item.
  destruct (assoc (lit "documentPages") d) as [[| | | | |ps|]|]; try done;
    cbn [bool_decide decide_rel is_Some_dec mbind res_bind py_iter];
    [|by eexists].
  intros Hlists. rewrite walk_pages_narrative by done. by eexists.
Qed.

Lemma render_message_turn message :
  is_turn message -> render_message tt message = Ok tt.
Proof.
  destruct message as [| | | | | |e]; try done. simpl.
  unfold render_message, py_item.
  destruct (assoc (lit "role") e) as [[| | | |role| |]|]; try done.
  intros [content ->]. reflexivity.
Qed.

Lemma render_history_turns turns :
  Forall is_turn turns -> render_history (VList turns) = Ok tt.
Proof.
  unfold render_history. cbn [py_iter mbind res_bind].
  induction 1 as [|m turns Hm _ IH]; [done|]. cbn [for_each].
  by rewrite (render_message_turn m Hm).
Qed.

Section TurnFacts.

Variable py_repr : value -> pystr.
Variable exc_text : exn -> pystr.

(** The tabs display a displayable result. *)
Lemma display_returns d : displayable d -> display py_repr (VDict d) = Ok tt.
Proof.
  intros (Hwf & Hlists & Hkeywords). unfold display, metrics.
  cbn [py_get_or py_get mbind res_bind].
  assert (exists n, pages_metric (VDict d) = Ok n) as [pages ->].
  { destruct Hwf as (_ & _ & _ & Hpages). unfold pages_metric, py_get_or.
    cbn [mbind res_bind].
    destruct (assoc (lit "documentPages") d) as [[| | | | |ps|]|]; try done;
      by eexists. }
  assert (exists n, keywords_metric (VDict d) = Ok n) as [keywords ->].
  { unfold keywords_metric, py_get, py_get_or. cbn [mbind res_bind].
    destruct (assoc (lit "fileKeywords") d) as [[| | | |s| |]|]; try done;
      cbn [default from_option id truthy]; try by eexists.
    destruct (nonempty s); by eexists. }
  cbn [mbind res_bind].
  destruct (narratives_return d Hwf Hlists) as [found ->].
  destruct (walk_returns (lit "suggestedText") d Hwf) as [suggested Hs].
  unfold suggested_texts. rewrite Hs. cbn [mbind res_bind].
  unfold combined_text. rewrite extracted_texts_wf by done.
  cbn [mbind res_bind]. rewrite nonempty_fmap.
  destruct (nonempty (all_texts d)); [|done].
  by rewrite py_join_strings.
Qed.

(** X10: one turn of the chat.  Let the session hold a non-empty result the
    tabs can display (well-formed, each [narrative] absent or a list,
    [fileKeywords] absent or a string) and a chat history that is absent or
    a list of turns, each a [dict] with a string [role] and a [content]; let
    a completion credential be set and a question typed.  Then the tabs and
    the history render, the builder returns a context for the result, the
    chat block posts the one request that [generate_chat_response] makes of
    the question and of that context, and nothing else, and it appends to
    the history the question as a user turn and then the reply as an
    assistant turn. *)
Theorem chat_turn w ui ss log d c k p ps :
  ss !! "xray_data" = Some (VDict d) ->
  d ≠ [] ->
  displayable d ->
  OPENROUTER_API_KEY w = Some (c :: k) ->
  chat_input ui = Some (p :: ps) ->
  (ss !! "chat_history" = None \/
   exists turns,
     ss !! "chat_history" = Some (VList turns) /\ Forall is_turn turns) ->
  exists context reply,
    display py_repr (VDict d) = Ok tt /\
    render_history (VList (history_of ss)) = Ok tt /\
    prepare_chat_context py_repr (VDict d) (VStr (p :: ps)) = Ok context /\
    generate_chat_response py_repr exc_text (Some (c :: k))
      (completion_reply w) (VStr (p :: ps)) context =
    ([completion_request (c :: k)
        (full_prompt
           (py_str py_repr
              (if truthy context then context
               else VStr no_context_instruction))
           (p :: ps))],
     Ok reply) /\
    chat py_repr exc_text w ui ss log =
    (Next tt,
     <["chat_history" :=
         VList (history_of ss ++ [turn "user" (VStr (p :: ps));
                                  turn "assistant" reply])]> ss,
     log ++ [Post (completion_request (c :: k)
                     (full_prompt
                        (py_str py_repr
                           (if truthy context then context
                            else VStr no_context_instruction))
                        (p :: ps)))]).
Proof.
  intros Hxray Hd Hshown Hkey Hinput Hhistory.
  pose proof (display_returns d Hshown) as Hdisplay.
  pose proof (prepare_chat_context_sections py_repr d (VStr (p :: ps))
                (proj1 Hshown)) as Hcontext.
  set (context := if nonempty (sections d)
                  then VStr (join_with (nl ++ nl) (sections d))
                  else VNone) in Hcontext.
  destruct (generate_chat_response_returns py_repr exc_text (Some (c :: k))
              (completion_reply w) (VStr (p :: ps)) context) as [reply Hreply].
  exists context, reply.
  assert (Hgen : generate_chat_response py_repr exc_text (Some (c :: k))
                   (completion_reply w) (VStr (p :: ps)) context =
                 ([completion_request (c :: k)
                     (full_prompt
                        (py_str py_repr
                           (if truthy context then context
                            else VStr no_context_instruction))
                        (p :: ps))], Ok reply)).
  { unfold generate_chat_response in *. cbn [snd] in Hreply.
    by rewrite Hreply. }
  assert (Hrender : render_history (VList (history_of ss)) = Ok tt).
  { apply render_history_turns. unfold history_of.
    destruct Hhistory as [-> | (turns & -> & Hturns)]; [constructor|done]. }
  split; [exact Hdisplay|]. split; [exact Hrender|].
  split; [exact Hcontext|]. split; [exact Hgen|].
  assert (Htruthy : truthy (VDict d) = true) by (by destruct d).
  unfold chat, then_, when, mbind, run_bind, state_get, state_set, state_has,
    called_all, mret, run_ret.
  rewrite Hxray. cbn [default from_option id].
  rewrite Htruthy, Hdisplay, Hkey, Hinput.
  cbn [lift mret run_ret fst snd].
  unfold history_of in *.
  destruct Hhistory as [Hnone|(turns & Hturns & _)].
  - rewrite Hnone in *. rewrite bool_decide_false by (by intros [? ?]).
    repeat first
      [ progress rewrite lookup_insert_eq | progress rewrite Hcontext
      | progress rewrite Hgen | progress rewrite Hrender
      | progress cbn [negb lift mret run_ret fst snd py_append default
                        from_option id fmap list_fmap app] ].
    by rewrite !insert_insert_eq.
  - rewrite Hturns in *. rewrite bool_decide_true by eauto.
    repeat first
      [ progress rewrite Hturns | progress rewrite lookup_insert_eq
      | progress rewrite Hcontext | progress rewrite Hgen
      | progress rewrite Hrender
      | progress cbn [negb lift mret run_ret fst snd py_append default
                        from_option id fmap list_fmap app] ].
    by rewrite !insert_insert_eq, <- app_assoc.
Qed.

End TurnFacts.

(** *** The builder on results with null values *)

Section NullableFacts.

Variable py_repr : value -> pystr.

Lemma labelled_part_nullable d key label parts :
  opt_str (assoc (lit key) d) ->
  labelled_part py_repr (VDict d) (lit key) label parts =
  Ok (parts ++ part label (field d key)).
Proof.
  unfold labelled_part, part, field. simpl.
  destruct (assoc (lit key) d) as [[| | | |s| |]|]; simpl; try done; intros _.
  - by rewrite app_nil_r.
  - destruct s; simpl; [by rewrite app_nil_r | done].
  - by rewrite app_nil_r.
Qed.

Lemma chunk_step_nullable acc chunk :
  nullable_chunk chunk ->
  chunk_step acc chunk = Ok (acc ++ (VStr ∘ excerpt <$> texts_of [chunk])).
Proof.
  rewrite texts_of_single.
  destruct chunk as [| | | | |? |d]; simpl; try done.
  unfold chunk_step, field, excerpt, py_in, py_item.
  destruct (assoc (lit "text") d) as [[| | | |s| |]|] eqn:E; simpl; try done;
    intros _.
  - by rewrite app_nil_r.
  - destruct s as [|c s]; simpl.
    + by rewrite app_nil_r.
    + destruct (500 <? S (length s))%nat; reflexivity.
  - by rewrite app_nil_r.
Qed.

Lemma chunk_loop_nullable chunks : forall acc,
  Forall nullable_chunk chunks ->
  for_each chunk_step acc chunks =
  Ok (acc ++ (VStr ∘ excerpt <$> texts_of chunks)).
Proof.
  induction chunks as [|c cs IH]; intros acc Hwf.
  - simpl. by rewrite app_nil_r.
  - inversion Hwf as [|? ? Hc Hcs]; subst. simpl.
    rewrite (chunk_step_nullable _ _ Hc). simpl. rewrite ?bind_ok, (IH _ Hcs).
    by rewrite (texts_of_cons c cs), fmap_app, app_assoc.
Qed.

(** One pass of the outer loop: null [chunks] cannot be sliced. *)
Lemma page_step_nullable acc page :
  nullable_page page ->
  page_step acc page =
  if null_chunks page then Raise TypeError
  else Ok (acc ++ (VStr ∘ excerpt <$> texts_of (take 3 (page_chunks page)))).
Proof.
  destruct page as [| | | | |? |d]; simpl; try done.
  unfold page_step. simpl.
  destruct (assoc (lit "chunks") d) as [[| | | | |cs|]|] eqn:E; simpl;
    try done.
  - intros Hwf. apply chunk_loop_nullable. by apply Forall_take.
  - intros _. by rewrite app_nil_r.
Qed.

Lemma page_loop_nullable pages : forall acc,
  Forall nullable_page pages ->
  for_each page_step acc pages =
  if existsb null_chunks pages then Raise TypeError
  else Ok (acc ++ (VStr ∘ excerpt <$>
                   concat ((fun p => texts_of (take 3 (page_chunks p)))
                             <$> pages))).
Proof.
  induction pages as [|p ps IH]; intros acc Hwf.
  - simpl. by rewrite app_nil_r.
  - inversion Hwf as [|? ? Hp Hps]; subst. cbn [for_each existsb].
    rewrite (page_step_nullable _ _ Hp).
    destruct (null_chunks p); [done|]. cbn [orb mbind res_bind].
    rewrite (IH _ Hps). destruct (existsb null_chunks ps); [done|].
    cbn [fmap list_fmap concat]. by rewrite fmap_app, app_assoc.
Qed.

(** X18: the builder on every result of the wider model, in which a field
    it reads is absent, null or of its declared type.  It raises exactly
    when one of the first two pages has [chunks] that are there and null,
    and then it raises [TypeError]; on every other such result it treats
    a null field as an absent one and returns the labelled sections that
    can be produced, in their order and joined by blank lines, or [None]
    when there is none. *)
Theorem prepare_chat_context_nullable d prompt :
  nullable_xray d ->
  prepare_chat_context py_repr (VDict d) prompt =
  if existsb null_chunks (take 2 (pages_of d)) then Raise TypeError
  else Ok (if nonempty (sections d)
           then VStr (join_with (nl ++ nl) (sections d))
           else VNone).
Proof.
  intros (Hs & Ht & Hl & Hp).
  unfold prepare_chat_context. cbn [truthy].
  destruct (nonempty d) eqn:Hd; cbn [negb];
    [|apply nonempty_false in Hd; subst d; reflexivity].
  rewrite (labelled_part_nullable _ "fileSummary" _ _ Hs), bind_ok, app_nil_l.
  unfold sections, window_texts, pages_of, py_in, py_item.
  destruct (assoc (lit "documentPages") d) as [[| | | | |ps|]|] eqn:E;
    try done; cbn [bool_decide decide_rel is_Some_dec option_eq_None_dec];
    rewrite ?bind_ok.
  - cbn [truthy take existsb fmap list_fmap concat]. rewrite !bind_ok.
    rewrite (labelled_part_nullable _ "fileType" _ _ Ht), bind_ok.
    rewrite (labelled_part_nullable _ "language" _ _ Hl), bind_ok.
    by rewrite <- !app_assoc.
  - cbn [truthy]. destruct (nonempty ps) eqn:Hps.
    + cbn [mbind res_bind py_slice py_iter].
      rewrite (page_loop_nullable (take 2 ps) []) by by apply Forall_take.
      destruct (existsb null_chunks (take 2 ps)); [done|].
      rewrite bind_ok, app_nil_l.
      rewrite nonempty_fmap. unfold content_part.
      set (texts := concat _).
      destruct (nonempty texts) eqn:Hne.
      * rewrite list_fmap_compose, py_join_strings, !bind_ok.
        rewrite (labelled_part_nullable _ "fileType" _ _ Ht), bind_ok.
        rewrite (labelled_part_nullable _ "language" _ _ Hl), bind_ok.
        by rewrite <- !app_assoc.
      * rewrite !bind_ok.
        rewrite (labelled_part_nullable _ "fileType" _ _ Ht), bind_ok.
        rewrite (labelled_part_nullable _ "language" _ _ Hl), bind_ok.
        by rewrite <- !app_assoc.
    + apply nonempty_false in Hps; subst ps. rewrite !bind_ok.
      rewrite (labelled_part_nullable _ "fileType" _ _ Ht), bind_ok.
      rewrite (labelled_part_nullable _ "language" _ _ Hl), bind_ok.
      by rewrite <- !app_assoc.
  - cbn [take existsb].
    rewrite (labelled_part_nullable _ "fileType" _ _ Ht), bind_ok.
    rewrite (labelled_part_nullable _ "language" _ _ Hl), bind_ok.
    by rewrite <- !app_assoc.
Qed.

End NullableFacts.

(** *** The script at inputs that end a run early *)

(** A key with a surrogate: the codec's error is recorded, no client is
    created and no call is made. *)
Example connect_surrogate_key exc_text ss log :
  connect exc_text world_surrogate_key ss log =
  (Next {| gx := false; bucket_id := VNone; groundx_available := false;
           groundx_error :=
             VStr (lit "'utf-8' codec can't encode character '\udc80' in position 3: surrogates not allowed") |},
   ss, log).
Proof. reflexivity. Qed.

(** A run of three surrogates is reported by its first and last index. *)
Example encode_surrogate_run :
  py_encode (lit "a" ++ [56448; 56449; 57343]%N ++ lit "b") =
  Raise (Raised true
           (lit "'utf-8' codec can't encode characters in position 1-3: surrogates not allowed")).
Proof. reflexivity. Qed.

(** The tabs read every page: on a result whose third page is [None] the
    display raises and the question is not posted, although the builder,
    which reads two pages, returns a context for it. *)
Example chat_null_page py_repr exc_text log :
  prepare_chat_context py_repr xray_null_page (VStr (lit "Q")) =
  Ok (VStr (lit "Summary: S" ++ nl ++ nl ++ lit "Document Content: a b")) /\
  chat py_repr exc_text world_chat ask_example
    (<["xray_data" := xray_null_page]> ∅) log =
  (End (Crashed TypeError), <["xray_data" := xray_null_page]> ∅, log).
Proof. split; reflexivity. Qed.

(** ** The theorems above at example inputs *)


Lemma script_without_client_witness :
  data_calls (script no_repr no_text world_no_key upload_example ∅ []).2 = [].
Proof.
  apply (script_without_client no_repr no_text world_no_key upload_example
           ∅ []).
  intros [[Hkey _] _]. by apply Hkey.
Defined.

Lemma loaded_result_is_kept_witness :
  Forall no_reset steps_with_upload /\
  loaded session_with_chat /\
  (session_runs no_repr no_text steps_with_upload session_with_chat []).1
    !! "xray_data" = Some xray_example /\
  data_calls
    (session_runs no_repr no_text steps_with_upload session_with_chat []).2 =
  [].
Proof.
  assert (Hsteps : Forall no_reset steps_with_upload).
  { by repeat constructor. }
  assert (Hloaded : loaded session_with_chat) by reflexivity.
  split; [exact Hsteps|]. split; [exact Hloaded|].
  exact (loaded_result_is_kept no_repr no_text steps_with_upload
           session_with_chat [] Hsteps Hloaded).
Defined.

Lemma chat_history_append_only_witness :
  exists more,
    (session_runs no_repr no_text steps_with_question session_with_chat []).1
      !! "chat_history" =
    Some (VList ([ turn "user" (VStr (lit "What is this?"));
                   turn "assistant" (VStr (lit "A sample.")) ] ++ more)).
Proof.
  apply (chat_history_append_only no_repr no_text steps_with_question
           session_with_chat []).
  - by repeat constructor.
  - reflexivity.
Defined.

Lemma chat_turn_witness :
  exists reply,
    chat no_repr no_text world_chat ask_example session_with_chat [] =
    (Next tt,
     <["chat_history" :=
         VList (history_of session_with_chat
                ++ [turn "user" (VStr (lit "Q"));
                    turn "assistant" reply])]> session_with_chat,
     [Post (completion_request (lit "or-key")
              (full_prompt context_example (lit "Q")))]).
Proof.
  assert (Hshown : displayable (fields_of xray_example)).
  { vm_compute. repeat split; repeat constructor. }
  assert (Hturns : Forall is_turn [ turn "user" (VStr (lit "What is this?"));
                                    turn "assistant" (VStr (lit "A sample.")) ]).
  { repeat constructor; vm_compute; by eexists. }
  destruct (chat_turn no_repr no_text world_chat ask_example
              session_with_chat [] (fields_of xray_example)
              111%N (lit "r-key") 81%N []
              eq_refl ltac:(discriminate) Hshown eq_refl eq_refl
              (or_intror (ex_intro _ _ (conj eq_refl Hturns))))
    as (context & reply & _ & _ & Hcontext & _ & Hchat).
  exists reply.
  assert (Hc : Ok context = Ok (VStr context_example)).
  { rewrite <- Hcontext. exact (example_run no_repr). }
  injection Hc as ->. exact Hchat.
Defined.

Lemma prepare_chat_context_order_witness :
  wf_xray (VDict xray_long) /\
  prepare_chat_context no_repr (VDict xray_long) (VStr (lit "Q")) =
  Ok (VStr (join_with (nl ++ nl)
              (part (lit "Summary: ") (field xray_long "fileSummary")
               ++ content_part (window_texts xray_long)
               ++ part (lit "File Type: ") (field xray_long "fileType")
               ++ part (lit "Language: ") (field xray_long "language")))).
Proof.
  assert (Hwf : wf_xray (VDict xray_long)).
  { vm_compute. repeat split; repeat constructor. }
  split; [exact Hwf|].
  exact (prepare_chat_context_order no_repr xray_long (VStr (lit "Q")) Hwf).
Defined.

Lemma prepare_chat_context_size_witness :
  wf_xray (VDict xray_long) /\
  exists r,
    prepare_chat_context no_repr (VDict xray_long) (VStr (lit "Q")) = Ok r /\
    (r = VNone \/
     exists s, r = VStr s /\ (length s <= 1 + 0 + 0 + 3077)%nat).
Proof.
  assert (Hwf : wf_xray (VDict xray_long)).
  { vm_compute. repeat split; repeat constructor. }
  split; [exact Hwf|].
  exact (prepare_chat_context_size no_repr xray_long (VStr (lit "Q")) Hwf).
Defined.

Lemma extracted_texts_all_witness :
  wf_xray (VDict xray_long) /\
  extracted_texts (VDict xray_long) = Ok [VStr long_text; VStr (lit "T")] /\
  window_texts xray_long `sublist_of` all_texts xray_long.
Proof.
  assert (Hwf : wf_xray (VDict xray_long)).
  { vm_compute. repeat split; repeat constructor. }
  split; [exact Hwf|].
  destruct (extracted_texts_all xray_long Hwf) as (Hall & _ & Hsub).
  split; [exact Hall | exact Hsub].
Defined.

Lemma result_metrics_witness :
  pages_metric (VDict xray_keywords) = Ok 2%nat /\
  keywords_metric (VDict xray_keywords) = Ok 3%nat.
Proof.
  apply (result_metrics xray_keywords).
  - vm_compute. repeat split; repeat constructor.
  - exact I.
Defined.

Lemma walk_collects_truthy_witness :
  extracted_texts (VDict xray_keywords) = Ok [VStr (lit "T")] /\
  Forall (fun v => truthy v = true) [VStr (lit "T")].
Proof.
  assert (Hwalk : walk (lit "text") false (VDict xray_keywords) =
                  Ok [VStr (lit "T")]) by reflexivity.
  split; [exact Hwalk|].
  exact (walk_collects_truthy (lit "text") (VDict xray_keywords) _ Hwalk).
Defined.

Lemma narratives_spliced_witness :
  narratives (VDict xray_keywords) = Ok [VStr (lit "n1"); VStr (lit "n2")].
Proof.
  apply (narratives_spliced xray_keywords).
  - vm_compute. repeat split; repeat constructor.
  - vm_compute. repeat constructor.
Defined.

Lemma prepare_chat_context_nullable_witness :
  nullable_xray xray_nulls /\
  prepare_chat_context no_repr (VDict xray_nulls) (VStr (lit "Q")) =
  Ok (VStr (lit "Document Content: T" ++ nl ++ nl ++ lit "File Type: PDF")).
Proof.
  assert (Hwide : nullable_xray xray_nulls).
  { vm_compute. repeat split; repeat constructor. }
  split; [exact Hwide|].
  exact (prepare_chat_context_nullable no_repr xray_nulls (VStr (lit "Q"))
           Hwide).
Defined.
